(** * TechTresses: tax and invoice calculation core

    A shallow embedding of the calculation code of the freelancer tax
    application: [services/taxService.js] ([TaxService]),
    [services/invoiceService.js] ([InvoiceService]),
    [controllers/taxController.js] ([TaxController]) and
    [controllers/invoiceController.js] ([InvoiceController]).

    Number model.  The program computes on JavaScript numbers.  They are
    embedded as exact rationals ([Q]): the decimal constants of the source
    ([0.05], [0.10], [0.18], [1.04], ...) denote the rationals they spell,
    [+], [-], [*] are exact, and [Math.round] is rounding to the nearest
    integer with ties going up.  Equality of numbers is [Qeq] ([==]).
    Module [IEEE] repeats the arithmetic of the services on binary64
    numbers, with every operation rounded, and [IEEEFacts] checks that
    both give the same figures on the inputs the specification names and
    around the slab boundaries.
    The wall clock ([new Date()], [Date.now()]) and the two stores
    ([User.findById], [Income.find]) are explicit arguments. *)

From Stdlib Require Import ZArith QArith Qround Qminmax Qabs SpecFloat.
From Stdlib Require Import Lia Lqa Bool List String Ascii DecimalString.
From Stdlib Require Import Permutation.
Import ListNotations.

Local Open Scope Q_scope.

(** ** JavaScript primitives used by the services *)

Module JS.

(** [Math.round x]: the integer nearest to [x], ties towards plus
    infinity, which is [floor (x + 1/2)]. *)
Definition Math_round (x : Q) : Q := inject_Z (Qfloor (x + 0.5)).

Definition Math_max (x y : Q) : Q := Qmax x y.
Definition Math_min (x y : Q) : Q := Qmin x y.

(** The comparison operators [<=], [<] and [>] on numbers. *)
Definition leb (x y : Q) : bool := Qle_bool x y.
Definition ltb (x y : Q) : bool := negb (Qle_bool y x).
Definition gtb (x y : Q) : bool := negb (Qle_bool x y).

(** Truthiness of a number ([!amount] is [negb (truthy amount)]) and of
    a string ([!clientName]). *)
Definition truthy (x : Q) : bool := negb (Qeq_bool x 0).
Definition nonempty (s : string) : bool :=
  match s with EmptyString => false | String _ _ => true end.

(** An integer inside a template literal: its decimal digits. *)
Definition show (n : Z) : string := NilZero.string_of_int (Z.to_int n).



End JS.

Infix "<=?" := JS.leb (at level 70, no associativity) : Q_scope.
Infix "<?" := JS.ltb (at level 70, no associativity) : Q_scope.
Infix ">?" := JS.gtb (at level 70, no associativity) : Q_scope.

(** ** models/user.js, models/income.js and the ambient clock *)

Module Models.

Import JS.

(** What [new Date()] offers to the code: [getFullYear()], the
    zero-based [getMonth()] and [getDate()]; and [Date.now()]. *)
Record Date := mkDate { getFullYear : Z; getMonth : Z; getDate : Z }.
Record Clock := mkClock { Date_now : Z; new_Date : Date }.

(** [toLocaleDateString('en-IN')]: day/month/year. *)
Definition toLocaleDateString (d : Date) : string :=
  (show (getDate d) ++ "/" ++ show (getMonth d + 1) ++ "/" ++ show (getFullYear d))%string.

Record BankDetails := mkBankDetails {
  accountNumber : string;
  ifscCode : string;
  bankName : string;
  upiId : string
}.

Record User := mkUser {
  name : string;
  email : string;
  gstRegistered : bool;
  panNumber : string;
  bankDetails : option BankDetails
}.

Record Income := mkIncome {
  clientName : string;
  amount : Q;
  date : Date;
  tdsDeducted : bool;
  gstApplicable : bool;
  userId : string
}.

(** A call that either returns or throws an [Error] with a message. *)
Inductive result (A : Type) : Type :=
| Ok (a : A)
| Throw (message : string).
Arguments Ok {A} a.
Arguments Throw {A} message.

Definition bind {A B : Type} (r : result A) (k : A -> result B) : result B :=
  match r with Ok a => k a | Throw m => Throw m end.

(** [try { body } catch (error) { throw new Error(prefix + error.message) }]. *)
Definition rethrow {A : Type} (prefix : string) (body : result A) : result A :=
  match body with Ok a => Ok a | Throw m => Throw (prefix ++ m)%string end.

End Models.

(** ** services/taxService.js *)

Module TaxService.

Import JS Models.

(** The [if]/[else if] chain of [calculateIncomeTax]: the value of the
    local [tax] when the function reaches its [return]. *)
Definition slabTax (totalIncome : Q) : Q :=
  if totalIncome <=? 250000 then
    0
  else if totalIncome <=? 500000 then
    (totalIncome - 250000) * 0.05
  else if totalIncome <=? 750000 then
    12500 + (totalIncome - 500000) * 0.10
  else if totalIncome <=? 1000000 then
    37500 + (totalIncome - 750000) * 0.15
  else if totalIncome <=? 1250000 then
    75000 + (totalIncome - 1000000) * 0.20
  else if totalIncome <=? 1500000 then
    125000 + (totalIncome - 1250000) * 0.25
  else
    187500 + (totalIncome - 1500000) * 0.30.

Definition calculateIncomeTax (totalIncome : Q) : Q :=
  let tax := slabTax totalIncome in
  Math_round tax.

(** Apply TDS at 10%. *)
Definition applyTDS (amount : Q) : Q := Math_round (amount * 0.10).

(** Check GST threshold (20 lakhs). *)
Definition checkGSTThreshold (totalIncome : Q) : bool :=
  totalIncome >? 2000000.

Record AdvanceTaxInfo := mkAdvanceTaxInfo {
  amountDue : Q;
  nextDueDate : string;
  percentageDue : Q
}.

(** Calculate advance tax due based on current date. *)
Definition getAdvanceTaxDue (clock : Clock) (estimatedTax : Q) : AdvanceTaxInfo :=
  let today := new_Date clock in
  let currentYear := getFullYear today in
  let currentMonth := (getMonth today + 1)%Z in
  let '(percentageDue, nextDueDate) :=
    if (currentMonth <? 6)%Z then
      (0, "June 15, " ++ show currentYear)%string
    else if (currentMonth <? 9)%Z then
      (0.15, "September 15, " ++ show currentYear)%string
    else if (currentMonth <? 12)%Z then
      (0.45, "December 15, " ++ show currentYear)%string
    else
      (0.75, "March 15, " ++ show (currentYear + 1))%string in
  {| amountDue := Math_round (estimatedTax * percentageDue);
     nextDueDate := nextDueDate;
     percentageDue := percentageDue * 100 |}.

Record Deduction := mkDeduction {
  section : string;
  amount : Q;
  description : string
}.

Record DeductionPlan := mkDeductionPlan {
  recommendedDeductions : list Deduction;
  totalDeductions : Q;
  possibleSavings : Q;
  taxableIncome : Q;
  taxWithDeductions : Q
}.

(** [deductions.push(d)]. *)
Definition push {A : Type} (l : list A) (x : A) : list A := l ++ [x].

(** Calculate deductions based on expenses and 80C options.  [expenses]
    is the object of the caller, given by its [Object.entries] in their
    order ([None] for a missing object); the mutable locals
    [deductions], [current80C] and [totalDeductions] are threaded. *)
Definition calculateDeductions (income : Q) (expenses : option (list (string * Q)))
  : DeductionPlan :=
  let deductions : list Deduction := [] in
  let totalDeductions := 0 in
  (* 80C deductions (max 1.5L) *)
  let max80C := 150000 in
  let current80C := 0 in
  (* PPF *)
  let '(deductions, current80C) :=
    if income >? 300000 then
      let ppfAmount := Math_min 50000 (max80C - current80C) in
      (push deductions
         {| section := "80C - PPF";
            amount := ppfAmount;
            description := "Public Provident Fund contribution" |},
       current80C + ppfAmount)
    else (deductions, current80C) in
  (* ELSS *)
  let '(deductions, current80C) :=
    if (income >? 400000) && (current80C <? max80C) then
      let elssAmount := Math_min 60000 (max80C - current80C) in
      (push deductions
         {| section := "80C - ELSS";
            amount := elssAmount;
            description := "Equity Linked Savings Scheme" |},
       current80C + elssAmount)
    else (deductions, current80C) in
  (* Life Insurance Premium *)
  let '(deductions, current80C) :=
    if (income >? 500000) && (current80C <? max80C) then
      let insuranceAmount := Math_min 40000 (max80C - current80C) in
      (push deductions
         {| section := "80C - Life Insurance";
            amount := insuranceAmount;
            description := "Life insurance premium" |},
       current80C + insuranceAmount)
    else (deductions, current80C) in
  let totalDeductions := totalDeductions + current80C in
  (* Business expense deductions *)
  let '(deductions, totalDeductions) :=
    match expenses with
    | Some expenses =>
        fold_left
          (fun '(deductions, totalDeductions) '(category, amount) =>
             if amount >? 0 then
               (push deductions
                  {| section := "Business Expense";
                     amount := amount;
                     description := (category ++ " - business expense")%string |},
                totalDeductions + amount)
             else (deductions, totalDeductions))
          expenses (deductions, totalDeductions)
    | None => (deductions, totalDeductions)
    end in
  (* Home office allowance *)
  let homeOfficeAllowance := Math_round (income * 0.25) in
  let deductions :=
    push deductions
      {| section := "Home Office";
         amount := homeOfficeAllowance;
         description := "Home office allowance (25% of income)" |} in
  let totalDeductions := totalDeductions + homeOfficeAllowance in
  (* Calculate possible tax savings *)
  let taxWithoutDeductions := calculateIncomeTax income in
  let taxableIncome := Math_max 0 (income - totalDeductions) in
  let taxWithDeductions := calculateIncomeTax taxableIncome in
  let possibleSavings := taxWithoutDeductions - taxWithDeductions in
  {| recommendedDeductions := deductions;
     totalDeductions := totalDeductions;
     possibleSavings := possibleSavings;
     taxableIncome := taxableIncome;
     taxWithDeductions := taxWithDeductions |}.

(** Get next due dates for advance tax and GST ([nextGSTDue] stays
    [null]). *)
Record DueDates := mkDueDates {
  nextAdvanceTaxDue_label : string;
  nextGSTDue : option string
}.

Definition getNextDueDate (clock : Clock) (userId : string) : DueDates :=
  let today := new_Date clock in
  let currentYear := getFullYear today in
  let currentMonth := (getMonth today + 1)%Z in
  let nextAdvanceTaxDue :=
    if (currentMonth <? 6)%Z then ("June 15, " ++ show currentYear)%string
    else if (currentMonth <? 9)%Z then ("September 15, " ++ show currentYear)%string
    else if (currentMonth <? 12)%Z then ("December 15, " ++ show currentYear)%string
    else ("March 15, " ++ show (currentYear + 1))%string in
  {| nextAdvanceTaxDue_label := nextAdvanceTaxDue; nextGSTDue := None |}.

Record IncomeLine := mkIncomeLine {
  line_clientName : string;
  line_amount : Q;
  line_date : Date;
  line_tdsDeducted : bool;
  line_gstApplicable : bool
}.

Record TaxSummary := mkTaxSummary {
  totalIncome : Q;
  gstRequired : bool;
  tdsCollected : Q;
  incomeTax : Q;
  finalTaxPayable : Q;
  advanceTaxDue : Q;
  nextAdvanceTaxDue : string;
  incomeBreakdown : list IncomeLine
}.

Section WithStores.

(** [User.findById] and [Income.find({ userId })]. *)
Variable User_findById : string -> option User.
Variable Income_find : string -> list Income.
Variable clock : Clock.

(** Get complete tax calculation for a user. *)
Definition calculateTax (userId : string) : result TaxSummary :=
  rethrow "Tax calculation failed: "
    (bind (match User_findById userId with
           | Some user => Ok user
           | None => Throw "User not found"
           end)
       (fun user =>
          let incomes := Income_find userId in
          let totalIncome :=
            fold_left (fun sum income => sum + Models.amount income) incomes 0 in
          let tdsCollected :=
            fold_left (fun sum income => sum + applyTDS (Models.amount income))
              (filter (fun income => tdsDeducted income) incomes) 0 in
          let gstRequired := gstRegistered user && checkGSTThreshold totalIncome in
          let incomeTax := calculateIncomeTax totalIncome in
          let advanceTaxInfo := getAdvanceTaxDue clock incomeTax in
          let finalTaxPayable := Math_max 0 (incomeTax - tdsCollected) in
          Ok {| totalIncome := totalIncome;
                gstRequired := gstRequired;
                tdsCollected := tdsCollected;
                incomeTax := incomeTax;
                finalTaxPayable := finalTaxPayable;
                advanceTaxDue := amountDue advanceTaxInfo;
                nextAdvanceTaxDue := nextDueDate advanceTaxInfo;
                incomeBreakdown :=
                  map (fun income =>
                         {| line_clientName := clientName income;
                            line_amount := Models.amount income;
                            line_date := date income;
                            line_tdsDeducted := tdsDeducted income;
                            line_gstApplicable := gstApplicable income |})
                    incomes |})).

End WithStores.

End TaxService.

(** ** controllers/taxController.js *)

Module TaxController.

Import JS Models.

(** [res.status(code).json({ success, message, data })]. *)
Record Response (A : Type) := mkResponse {
  status : Z;
  success : bool;
  message : string;
  data : option A
}.
Arguments mkResponse {A}.
Arguments status {A}.
Arguments success {A}.
Arguments message {A}.
Arguments data {A}.




End TaxController.

(** ** services/invoiceService.js *)

Module InvoiceService.

Import JS Models.

(** The PDF document is the sequence of calls made on it.  A text is
    kept as its pieces: literal characters and numbers printed by
    [toLocaleString('en-IN')]. *)
Inductive Piece : Type :=
| Str (s : string)
| LocaleNum (x : Q).

Inductive TextOption : Type :=
| Plain
| AlignCenter
| Underline
| Bold.

Inductive DocOp : Type :=
| fontSize (n : Z)
| text (content : list Piece) (opt : TextOption)
| moveDown.

Definition PDFDocument := list DocOp.

Record InvoiceData := mkInvoiceData {
  clientName : string;
  amount : Q;
  gstApplicable : bool;
  tds : bool;
  bankDetails : option BankDetails
}.

(** [s || 'N/A']. *)
Definition orNA (s : string) : string := if nonempty s then s else "N/A"%string.

(** Add content to the invoice. *)
Definition addInvoiceContent (clock : Clock) (doc : PDFDocument) (invoiceData : InvoiceData)
  : PDFDocument :=
  let '(mkInvoiceData clientName amount gstApplicable tds bankDetails) := invoiceData in
  (* Header *)
  let doc := doc ++ [fontSize 20; text [Str "TAX INVOICE"] AlignCenter; moveDown] in
  (* Invoice details *)
  let invoiceNumber := ("INV-" ++ show (Date_now clock))%string in
  let currentDate := toLocaleDateString (new_Date clock) in
  let doc := doc ++ [fontSize 12;
                     text [Str "Invoice Number: "; Str invoiceNumber] Plain;
                     text [Str "Date: "; Str currentDate] Plain;
                     moveDown] in
  (* Freelancer details *)
  let doc := doc ++ [fontSize 14; text [Str "Bill To:"] Underline;
                     fontSize 12; text [Str clientName] Plain; moveDown] in
  (* Services *)
  let doc := doc ++ [fontSize 14; text [Str "Services:"] Underline;
                     fontSize 12;
                     text [Str "Freelance Development/Consulting Services"] Plain;
                     moveDown] in
  (* Amount details *)
  let doc := doc ++ [fontSize 14; text [Str "Amount Details:"] Underline;
                     fontSize 12;
                     text [Str "Basic Amount: ₹"; LocaleNum amount] Plain] in
  (* TDS calculation *)
  let doc :=
    if tds then
      let tdsAmount := Math_round (amount * 0.10) in
      doc ++ [text [Str "TDS (10%): ₹"; LocaleNum tdsAmount] Plain;
              text [Str "Net Amount (after TDS): ₹"; LocaleNum (amount - tdsAmount)] Plain]
    else doc in
  (* GST calculation *)
  let doc :=
    if gstApplicable then
      let gstAmount := Math_round (amount * 0.18) in
      doc ++ [text [Str "GST (18%): ₹"; LocaleNum gstAmount] Plain;
              text [Str "Total Amount (with GST): ₹"; LocaleNum (amount + gstAmount)] Plain]
    else doc in
  (* Total amount *)
  let totalAmount := amount in
  let totalAmount :=
    if gstApplicable then totalAmount + Math_round (amount * 0.18) else totalAmount in
  let totalAmount :=
    if tds then totalAmount - Math_round (amount * 0.10) else totalAmount in
  let doc := doc ++ [moveDown; fontSize 14;
                     text [Str "Total Amount: ₹"; LocaleNum totalAmount] Bold;
                     moveDown] in
  (* Bank details *)
  let doc :=
    match bankDetails with
    | Some bankDetails =>
        doc ++ [fontSize 14; text [Str "Payment Details:"] Underline;
                fontSize 12;
                text [Str "Bank Name: "; Str (orNA (bankName bankDetails))] Plain;
                text [Str "Account Number: "; Str (orNA (accountNumber bankDetails))] Plain;
                text [Str "IFSC Code: "; Str (orNA (ifscCode bankDetails))] Plain;
                text [Str "UPI ID: "; Str (orNA (upiId bankDetails))] Plain;
                moveDown]
    | None => doc
    end in
  (* Footer *)
  let doc := doc ++ [fontSize 10;
                     text [Str "This is a computer-generated invoice."] AlignCenter;
                     text [Str "Thank you for your business!"] AlignCenter] in
  (* Add note about TDS and GST *)
  let doc := doc ++ [moveDown; fontSize 9; text [Str "Notes:"] Underline] in
  let doc :=
    if tds then
      doc ++ [text [Str "• TDS (Tax Deducted at Source) has been deducted as per Indian tax laws."] Plain]
    else doc in
  let doc :=
    if gstApplicable then
      doc ++ [text [Str "• GST (Goods and Services Tax) is applicable as per current rates."] Plain]
    else doc in
  doc ++ [text [Str "• Please make payment within 15 days of invoice date."] Plain].

(** Generate PDF invoice: a new document, its content, [doc.end()]. *)
Definition generateInvoice (clock : Clock) (invoiceData : InvoiceData) : result PDFDocument :=
  rethrow "PDF generation failed: " (Ok (addInvoiceContent clock [] invoiceData)).

(** Get invoice data with user bank details. *)
Definition getInvoiceData (User_findById : string -> option User)
  (userId : string) (invoiceData : InvoiceData) : result InvoiceData :=
  rethrow "Failed to get invoice data: "
    (match User_findById userId with
     | None => Throw "User not found"
     | Some user =>
         Ok {| clientName := clientName invoiceData;
               amount := amount invoiceData;
               gstApplicable := gstApplicable invoiceData;
               tds := tds invoiceData;
               bankDetails :=
                 Some (match Models.bankDetails user with
                       | Some b => b
                       | None => mkBankDetails "" "" "" ""
                       end) |}
     end).

(** The number a document prints after a given label: the [LocaleNum] of
    the first text that starts with that label. *)
Fixpoint printed (label : string) (doc : PDFDocument) : option Q :=
  match doc with
  | [] => None
  | text [Str s; LocaleNum x] _ :: rest =>
      if String.eqb s label then Some x else printed label rest
  | _ :: rest => printed label rest
  end.

End InvoiceService.

(** ** controllers/invoiceController.js *)

Module InvoiceController.

Import JS Models.
Import TaxController (Response, mkResponse).

Record PreviewRequest := mkPreviewRequest {
  clientName : string;
  amount : Q;
  gstApplicable : bool;
  tds : bool;
  userId : string
}.

Record Preview := mkPreview {
  preview_clientName : string;
  basicAmount : Q;
  preview_gstApplicable : bool;
  gstAmount : Q;
  preview_tds : bool;
  tdsAmount : Q;
  totalAmount : Q;
  invoiceNumber : string;
  preview_date : string
}.

(** Get invoice preview (without generating PDF).  A missing field of
    the body is the empty string, respectively the number 0. *)
Definition getInvoicePreview (clock : Clock) (body : PreviewRequest) : Response Preview :=
  let '(mkPreviewRequest clientName amount gstApplicable tds userId) := body in
  (* Validation *)
  if negb (nonempty clientName) || negb (truthy amount) || negb (nonempty userId) then
    mkResponse 400 false "Client name, amount, and user ID are required" None
  else if amount <=? 0 then
    mkResponse 400 false "Amount must be greater than 0" None
  else
    (* Calculate invoice amounts *)
    let basicAmount := amount in
    let gstAmount := 0 in
    let tdsAmount := 0 in
    let totalAmount := amount in
    let '(gstAmount, totalAmount) :=
      if gstApplicable then
        let gstAmount := Math_round (amount * 0.18) in
        (gstAmount, totalAmount + gstAmount)
      else (gstAmount, totalAmount) in
    let '(tdsAmount, totalAmount) :=
      if tds then
        let tdsAmount := Math_round (amount * 0.10) in
        (tdsAmount, totalAmount - tdsAmount)
      else (tdsAmount, totalAmount) in
    let preview :=
      {| preview_clientName := clientName;
         basicAmount := basicAmount;
         preview_gstApplicable := gstApplicable;
         gstAmount := gstAmount;
         preview_tds := tds;
         tdsAmount := tdsAmount;
         totalAmount := totalAmount;
         invoiceNumber := ("INV-" ++ show (Date_now clock))%string;
         preview_date := toLocaleDateString (new_Date clock) |} in
    mkResponse 200 true "Invoice preview generated successfully" (Some preview).

End InvoiceController.

(** ** The same arithmetic on binary64 numbers

    [SpecFloat] gives the IEEE 754 operations on [spec_float]; at
    precision 53 and exponent bound 1024 they are the operations of a
    JavaScript number.  [int n] is the number written as the integer
    [n], [dec n d] the one written as the decimal [n/d] (the binary64
    number nearest to it). *)

Module IEEE.

Definition double := spec_float.
Definition prec : Z := 53.
Definition emax : Z := 1024.

Definition int (n : Z) : double := binary_normalize prec emax n 0 false.
Definition dec (n d : Z) : double := SFdiv prec emax (int n) (int d).
Definition mul : double -> double -> double := SFmul prec emax.
Definition add : double -> double -> double := SFadd prec emax.
Definition sub : double -> double -> double := SFsub prec emax.
Definition leb : double -> double -> bool := SFleb.
Definition gtb (x y : double) : bool := SFltb y x.

(** [Math.round]: a number with a non-negative exponent is an integer;
    otherwise [m * 2^e] goes to [floor (m * 2^e + 1/2)].  (The sign of a
    zero result is not kept.) *)
Definition Math_round (x : double) : double :=
  match x with
  | S754_finite s m e =>
      if (0 <=? e)%Z then x
      else int ((cond_Zopp s (Zpos m) * 2 + 2 ^ (- e)) / 2 ^ (- e + 1))
  | _ => x
  end.

Definition Math_max (x y : double) : double := if leb x y then y else x.

(** The rational a finite number stands for. *)
Definition to_Q (x : double) : option Q :=
  match x with
  | S754_zero _ => Some 0
  | S754_finite s m e => Some (Qred (inject_Z (cond_Zopp s (Zpos m)) * Qpower 2 e))
  | _ => None
  end.

(** A binary64 result stands for the same rational as an exact one. *)
Definition agree (x : double) (q : Q) : bool :=
  match to_Q x with
  | Some r => Qeq_bool r q
  | None => false
  end.

Declare Scope double_scope.
Delimit Scope double_scope with double.
Bind Scope double_scope with double.
Infix "*" := mul : double_scope.
Infix "+" := add : double_scope.
Infix "-" := sub : double_scope.
Infix "<=?" := leb (at level 70, no associativity) : double_scope.
Infix ">?" := gtb (at level 70, no associativity) : double_scope.
Local Open Scope double_scope.

Definition calculateIncomeTax (totalIncome : double) : double :=
  let tax :=
    if totalIncome <=? int 250000 then
      int 0
    else if totalIncome <=? int 500000 then
      (totalIncome - int 250000) * dec 5 100
    else if totalIncome <=? int 750000 then
      int 12500 + (totalIncome - int 500000) * dec 10 100
    else if totalIncome <=? int 1000000 then
      int 37500 + (totalIncome - int 750000) * dec 15 100
    else if totalIncome <=? int 1250000 then
      int 75000 + (totalIncome - int 1000000) * dec 20 100
    else if totalIncome <=? int 1500000 then
      int 125000 + (totalIncome - int 1250000) * dec 25 100
    else
      int 187500 + (totalIncome - int 1500000) * dec 30 100 in
  Math_round tax.

Definition applyTDS (amount : double) : double := Math_round (amount * dec 10 100).

Definition checkGSTThreshold (totalIncome : double) : bool :=
  totalIncome >? int 2000000.

(** [Math.round(estimatedTax * percentageDue)] and [percentageDue * 100]
    of [getAdvanceTaxDue], for a fraction written [n/100]. *)
Definition amountDue (estimatedTax : double) (n : Z) : double :=
  Math_round (estimatedTax * dec n 100).
Definition percentageDue (n : Z) : double := dec n 100 * int 100.

(** [Math.round(income * 0.25)] of [calculateDeductions]. *)
Definition homeOfficeAllowance (income : double) : double :=
  Math_round (income * dec 25 100).

(** The old-regime figure of [getTaxRegimeComparison]. *)
Definition oldRegimeTax (incomeNum : double) : double :=
  let taxableIncome := Math_max (int 0) (incomeNum - int 50000) in
  let oldRegimeTax :=
    if taxableIncome <=? int 250000 then
      int 0
    else if taxableIncome <=? int 500000 then
      (taxableIncome - int 250000) * dec 5 100
    else if taxableIncome <=? int 1000000 then
      int 12500 + (taxableIncome - int 500000) * dec 20 100
    else
      int 112500 + (taxableIncome - int 1000000) * dec 30 100 in
  Math_round (oldRegimeTax * dec 104 100).

(** [totalAmount] of the invoice, as both the preview and the PDF
    compute it. *)
Definition totalAmount (amount : double) (gstApplicable tds : bool) : double :=
  let totalAmount := amount in
  let totalAmount :=
    if gstApplicable then totalAmount + Math_round (amount * dec 18 100)
    else totalAmount in
  if tds then totalAmount - Math_round (amount * dec 10 100) else totalAmount.

End IEEE.

(** ** The specification's wording of the two algorithms

    These definitions follow the text of the specification, not the
    code; the theorems below compare them with the embedded functions. *)

Module Spec.

Import JS.
Import TaxService (Deduction, mkDeduction, section, amount, description).

(** A slab: the band of income it covers ([upper = None] for the open
    top band) and its marginal rate. *)
Record Slab := mkSlab { lower : Q; upper : option Q; rate : Q }.

Definition slabs : list Slab :=
  [ mkSlab 0 (Some 250000) 0;
    mkSlab 250000 (Some 500000) 0.05;
    mkSlab 500000 (Some 750000) 0.10;
    mkSlab 750000 (Some 1000000) 0.15;
    mkSlab 1000000 (Some 1250000) 0.20;
    mkSlab 1250000 (Some 1500000) 0.25;
    mkSlab 1500000 None 0.30 ].

(** The portion of [income] that lies within the band of a slab. *)
Definition portion (s : Slab) (income : Q) : Q :=
  let top := match upper s with Some u => Qmin income u | None => income end in
  Qmax 0 (top - lower s).

(** Progressive tax: each slab's rate applied to the portion of income
    within its band. *)
Definition progressive (table : list Slab) (income : Q) : Q :=
  fold_right (fun s acc => rate s * portion s income + acc) 0 table.

Definition progressive_tax (income : Q) : Q := progressive slabs income.

(** The regime comparison's reference table for the old regime: a flat
    standard deduction, four bands and a cess multiplier. *)
Definition standard_deduction : Q := 50000.
Definition cess : Q := 1.04.

Definition old_slabs : list Slab :=
  [ mkSlab 0 (Some 250000) 0;
    mkSlab 250000 (Some 500000) 0.05;
    mkSlab 500000 (Some 1000000) 0.20;
    mkSlab 1000000 None 0.30 ].

Definition old_regime_tax (income : Q) : Q :=
  Math_round (progressive old_slabs (Qmax 0 (income - standard_deduction)) * cess).

(** The sum of a list of numbers. *)
Definition total (l : list Q) : Q := fold_right Qplus 0 l.

(** The six slab boundaries, and the expression of the slab formula on
    each of the seven bands ([branch i] below the [i]-th boundary,
    [branch (S i)] above it). *)
Definition boundaries : list Q :=
  [250000; 500000; 750000; 1000000; 1250000; 1500000].

Definition branch (i : nat) (x : Q) : Q :=
  match i with
  | 0%nat => 0
  | 1%nat => (x - 250000) * 0.05
  | 2%nat => 12500 + (x - 500000) * 0.10
  | 3%nat => 37500 + (x - 750000) * 0.15
  | 4%nat => 75000 + (x - 1000000) * 0.20
  | 5%nat => 125000 + (x - 1250000) * 0.25
  | _ => 187500 + (x - 1500000) * 0.30
  end.

(** The greedy fill of the capped bucket.  A line of the bucket applies
    above an income threshold and offers up to [limit]; the state is the
    lines written so far and the cap that remains. *)
Record BucketLine := mkBucketLine {
  threshold : Q;
  limit : Q;
  label : string;
  text : string
}.

Definition cap : Q := 150000.

Definition bucket : list BucketLine :=
  [ mkBucketLine 300000 50000 "80C - PPF" "Public Provident Fund contribution";
    mkBucketLine 400000 60000 "80C - ELSS" "Equity Linked Savings Scheme";
    mkBucketLine 500000 40000 "80C - Life Insurance" "Life insurance premium" ].

Definition fill (income : Q) (st : list Deduction * Q) (b : BucketLine)
  : list Deduction * Q :=
  let '(lines, remaining) := st in
  if (income >? threshold b) && (remaining >? 0) then
    let a := Qmin (limit b) remaining in
    (lines ++ [mkDeduction (label b) a (text b)], remaining - a)
  else st.

Definition capped_lines (income : Q) : list Deduction :=
  fst (fold_left (fill income) bucket ([], cap)).

(** One uncapped line per expense entry with a positive amount. *)
Definition expense_lines (expenses : list (string * Q)) : list Deduction :=
  map (fun e => mkDeduction "Business Expense" (snd e)
                  (fst e ++ " - business expense")%string)
      (filter (fun e => snd e >? 0) expenses).

Definition home_office_line (income : Q) : Deduction :=
  mkDeduction "Home Office" (Math_round (income * 0.25))
    "Home office allowance (25% of income)".

Definition plan_lines (income : Q) (expenses : list (string * Q)) : list Deduction :=
  capped_lines income ++ expense_lines expenses ++ [home_office_line income].

Definition sum_amounts (lines : list Deduction) : Q :=
  fold_right (fun d acc => amount d + acc) 0 lines.

End Spec.

(** ** Sample data *)

Module Examples.

Import JS Models.

Definition clock : Clock := mkClock 1784000000000 (mkDate 2026 6 14).

Definition asha : User :=
  mkUser "Asha" "asha@example.com" true "ABCDE1234F"
    (Some (mkBankDetails "1234567890" "HDFC0001234" "HDFC Bank" "")).

Definition ravi : User :=
  mkUser "Ravi" "ravi@example.com" false "" None.

Definition User_findById (userId : string) : option User :=
  if String.eqb userId "u1" then Some asha
  else if String.eqb userId "u2" then Some ravi
  else None.

Definition Income_find (userId : string) : list Income :=
  if String.eqb userId "u1" then
    [ mkIncome "Acme" 600000 (mkDate 2026 3 2) false true "u1";
      mkIncome "Globex" 100000 (mkDate 2026 4 20) true false "u1" ]
  else if String.eqb userId "u2" then
    [ mkIncome "Initech" 2500000 (mkDate 2026 1 9) true false "u2" ]
  else [].

(** Whole-rupee incomes: the ones the specification names, the slab
    boundaries and their neighbours, and the first ties of each band. *)
Definition incomes : list Z :=
  [ 0; 1; 175500; 235500; 249999; 250000; 250001; 250010; 250030; 300000;
    400000; 450000; 499999; 500000; 500001; 500005; 700000; 749999; 750000;
    750001; 750010; 800000; 999999; 1000000; 1000001; 1249999; 1250000;
    1250001; 1250002; 1499999; 1500000; 1500001; 1500005; 2000000; 2000001;
    2500000; 12345678 ]%Z.

(** Invoice and income amounts, with ties of [amount * 0.10] and
    [amount * 0.18]. *)
Definition amounts : list Z :=
  [ 1; 5; 15; 25; 75; 999; 10000; 30000; 50000; 75000; 100000; 123455;
    600000; 2500000 ]%Z.

(** The expense mapping of the specification's deduction example. *)
Definition expenses : list (string * Q) :=
  [ ("laptop"%string, 40000); ("internet"%string, 12000) ].

End Examples.

(** ** controllers/taxController.js: the other endpoints *)

Module TaxEndpoints.

Import JS Models.

(** [res.status(code).json({ success, message, data, error })]: [data]
    is present on success, [error] (the message of the caught error) on
    a failure of the service. *)
Record Reply (A : Type) := mkReply {
  status : Z;
  success : bool;
  message : string;
  data : option A;
  error : option string
}.
Arguments mkReply {A}.
Arguments status {A}.
Arguments success {A}.
Arguments message {A}.
Arguments data {A}.
Arguments error {A}.

(** [{ estimatedTax: taxAmount, ...advanceTaxInfo }]. *)
Record AdvanceTax := mkAdvanceTax {
  estimatedTax : Q;
  amountDue : Q;
  nextDueDate : string;
  percentageDue : Q
}.

Section WithStores.

Variable User_findById : string -> option User.
Variable Income_find : string -> list Income.
Variable clock : Clock.

(** Calculate tax for a user.  A query parameter that is absent is the
    empty string. *)
Definition calculateTax (userId : string) : Reply TaxService.TaxSummary :=
  if negb (nonempty userId) then
    mkReply 400 false "User ID is required" None None
  else
    match TaxService.calculateTax User_findById Income_find clock userId with
    | Ok taxCalculation =>
        mkReply 200 true "Tax calculated successfully" (Some taxCalculation) None
    | Throw m =>
        mkReply 500 false "Failed to calculate tax" None (Some m)
    end.

(** Get deductions suggestions.  [income] and [expenses] are the fields
    of the body, [None] when absent. *)
Definition getDeductions (income : option Q) (expenses : option (list (string * Q)))
  : Reply TaxService.DeductionPlan :=
  match income with
  | None => mkReply 400 false "Valid income amount is required" None None
  | Some income =>
      if negb (truthy income) || (income <=? 0) then
        mkReply 400 false "Valid income amount is required" None None
      else
        let deductions :=
          TaxService.calculateDeductions income
            (Some (match expenses with Some e => e | None => [] end)) in
        mkReply 200 true "Deductions calculated successfully" (Some deductions) None
  end.

(** Get next due dates. *)
Definition getNextDueDate (userId : string) : Reply TaxService.DueDates :=
  if negb (nonempty userId) then
    mkReply 400 false "User ID is required" None None
  else
    let dueDates := TaxService.getNextDueDate clock userId in
    mkReply 200 true "Due dates retrieved successfully" (Some dueDates) None.

(** Get advance tax calculation.  [estimatedIncome] is the number the
    query parameter parses to, [None] when the parameter is absent. *)
Definition getAdvanceTax (userId : string) (estimatedIncome : option Q)
  : Reply AdvanceTax :=
  if negb (nonempty userId) then
    mkReply 400 false "User ID is required" None None
  else
    let taxAmount :=
      match estimatedIncome with
      | Some estimatedIncome => Ok (TaxService.calculateIncomeTax estimatedIncome)
      | None =>
          (* Calculate from actual income *)
          bind (TaxService.calculateTax User_findById Income_find clock userId)
            (fun taxCalculation => Ok (TaxService.incomeTax taxCalculation))
      end in
    match taxAmount with
    | Ok taxAmount =>
        let advanceTaxInfo := TaxService.getAdvanceTaxDue clock taxAmount in
        mkReply 200 true "Advance tax calculated successfully"
          (Some {| estimatedTax := taxAmount;
                   amountDue := TaxService.amountDue advanceTaxInfo;
                   nextDueDate := TaxService.nextDueDate advanceTaxInfo;
                   percentageDue := TaxService.percentageDue advanceTaxInfo |})
          None
    | Throw m =>
        mkReply 500 false "Failed to calculate advance tax" None (Some m)
    end.

End WithStores.

End TaxEndpoints.

(** ** controllers/invoiceController.js: the other endpoints *)

Module InvoiceEndpoints.

Import JS Models.
Import TaxEndpoints (Reply, mkReply).

(** The characters [\s] matches, in the UTF-8 bytes of the string: the
    ASCII ones (tab, line feed, vertical tab, form feed, carriage
    return, space), U+00A0, U+1680, U+2000 to U+200A, U+2028, U+2029,
    U+202F, U+205F, U+3000 and U+FEFF.  [whitespace s] is what follows
    the white-space character [s] starts with, if it starts with one. *)
Definition byte (c : ascii) : N := N_of_ascii c.

Definition ascii_space (c : ascii) : bool :=
  ((9 <=? byte c) && (byte c <=? 13) || (byte c =? 32))%N.

(** The white-space characters of two bytes (U+00A0) and of three. *)
Definition space2 (c1 c2 : ascii) : bool :=
  ((byte c1 =? 194) && (byte c2 =? 160))%N.

Definition space3 (c1 c2 c3 : ascii) : bool :=
  let b1 := byte c1 in
  let b2 := byte c2 in
  let b3 := byte c3 in
  ((b1 =? 225) && (b2 =? 154) && (b3 =? 128)
   || (b1 =? 226) && (b2 =? 128)
      && ((128 <=? b3) && (b3 <=? 138) || (b3 =? 168) || (b3 =? 169) || (b3 =? 175))
   || (b1 =? 226) && (b2 =? 129) && (b3 =? 159)
   || (b1 =? 227) && (b2 =? 128) && (b3 =? 128)
   || (b1 =? 239) && (b2 =? 187) && (b3 =? 191))%N.

Definition whitespace (s : string) : option string :=
  match s with
  | EmptyString => None
  | String c1 rest1 =>
      if ascii_space c1 then Some rest1
      else
        match rest1 with
        | EmptyString => None
        | String c2 rest2 =>
            if space2 c1 c2 then Some rest2
            else
              match rest2 with
              | EmptyString => None
              | String c3 rest3 => if space3 c1 c2 c3 then Some rest3 else None
              end
        end
  end.

(** [s.replace(/\s+/g, '-')]: every maximal run of white space becomes
    one dash.  [skip] counts the bytes of a white-space character that
    remain to be dropped, [run] tells that the previous character was
    white space. *)
Fixpoint dashes (skip : nat) (run : bool) (s : string) : string :=
  match s with
  | EmptyString => EmptyString
  | String c rest =>
      match skip with
      | S k => dashes k run rest
      | O =>
          match whitespace s with
          | Some after =>
              let k := (String.length rest - String.length after)%nat in
              if run then dashes k true rest
              else String "-" (dashes k true rest)
          | None => String c (dashes 0 false rest)
          end
      end
  end.

Definition replace_whitespace (s : string) : string := dashes 0 false s.

Definition dquote : string := String (ascii_of_nat 34) EmptyString.

Record InvoiceRequest := mkInvoiceRequest {
  clientName : string;
  amount : Q;
  gstApplicable : bool;
  tds : bool;
  bankDetails : option BankDetails;
  userId : string
}.

(** [res.setHeader]: the length of the buffer is kept as the buffer. *)
Inductive Header : Type :=
| ContentType (value : string)
| ContentDisposition (value : string)
| ContentLength (buffer : InvoiceService.PDFDocument).

Inductive InvoiceResponse : Type :=
| json (reply : Reply unit)
| send (headers : list Header) (pdfBuffer : InvoiceService.PDFDocument).

(** Generate PDF invoice.  [clock] is read by the service while it
    writes the document, [now] is the later [Date.now()] of the file
    name. *)
Definition generateInvoice (User_findById : string -> option User)
  (clock : Clock) (now : Z) (body : InvoiceRequest) : InvoiceResponse :=
  let '(mkInvoiceRequest clientName amount gstApplicable tds bankDetails userId) := body in
  (* Validation *)
  if negb (nonempty clientName) || negb (truthy amount) || negb (nonempty userId) then
    json (mkReply 400 false "Client name, amount, and user ID are required" None None)
  else if amount <=? 0 then
    json (mkReply 400 false "Amount must be greater than 0" None None)
  else
    let pdfBuffer :=
      (* Get invoice data with user bank details *)
      bind (InvoiceService.getInvoiceData User_findById userId
              (InvoiceService.mkInvoiceData clientName amount
                 (gstApplicable || false) (tds || false) bankDetails))
        (fun invoiceData =>
           (* Generate PDF *)
           InvoiceService.generateInvoice clock invoiceData) in
    match pdfBuffer with
    | Ok pdfBuffer =>
        let filename :=
          ("invoice-" ++ replace_whitespace clientName ++ "-" ++ show now ++ ".pdf")%string in
        send [ContentType "application/pdf";
              ContentDisposition
                ("attachment; filename=" ++ dquote ++ filename ++ dquote)%string;
              ContentLength pdfBuffer]
          pdfBuffer
    | Throw m =>
        json (mkReply 500 false "Failed to generate invoice" None (Some m))
    end.



End InvoiceEndpoints.

(** ** controllers/incomeController.js: the income summary *)

Module IncomeController.

Import JS Models.
Import TaxEndpoints (Reply, mkReply).

Record Summary := mkSummary {
  totalIncome : Q;
  totalEntries : Z;
  tdsCollected : Q;
  gstApplicableCount : Z;
  averageIncome : Q
}.

(** Get income summary for a user. *)
Definition getIncomeSummary (Income_find : string -> list Income) (userId : string)
  : Reply Summary :=
  if negb (nonempty userId) then
    mkReply 400 false "User ID is required" None None
  else
    let incomes := Income_find userId in
    let totalIncome := fold_left (fun sum income => sum + amount income) incomes 0 in
    let tdsCollected :=
      fold_left (fun sum income => sum + amount income * 0.10)
        (filter (fun income => tdsDeducted income) incomes) 0 in
    let gstApplicableCount :=
      Z.of_nat (List.length (filter (fun income => gstApplicable income) incomes)) in
    let summary :=
      {| totalIncome := totalIncome;
         totalEntries := Z.of_nat (List.length incomes);
         tdsCollected := Math_round tdsCollected;
         gstApplicableCount := gstApplicableCount;
         averageIncome :=
           if (Z.of_nat (List.length incomes) >? 0)%Z then
             Math_round (totalIncome / inject_Z (Z.of_nat (List.length incomes)))
           else 0 |} in
    mkReply 200 true "Income summary retrieved successfully" (Some summary) None.

End IncomeController.

(** ** public/js/utils.js, public/js/tax.js and public/js/main-simple.js:
       the calculations of the browser *)

Module Client.

Import JS.
Import InvoiceService (Piece, Str, LocaleNum).

(** [x.toFixed(0)]. *)
Definition toFixed0 (x : Q) : string :=
  let neg := x <? 0 in
  let x := if neg then - x else x in
  ((if neg then "-" else "") ++ show (Qfloor (x + 0.5)))%string.

(** [Math.ceil]. *)
Definition Math_ceil (x : Q) : Q := inject_Z (Qceiling x).

(** utils.js: calculate percentage. *)
Definition calculatePercentage (value total : Q) : Q :=
  if Qeq_bool total 0 then 0
  else Math_round ((value / total) * 100).

(** A slab of the table of [calculateIndianTax]; [max = None] is
    [Infinity]. *)
Record TaxSlab := mkTaxSlab { min : Q; max : option Q; rate : Q }.

Definition slabs : list TaxSlab :=
  [ mkTaxSlab 0 (Some 250000) 0;
    mkTaxSlab 250000 (Some 500000) 0.05;
    mkTaxSlab 500000 (Some 750000) 0.10;
    mkTaxSlab 750000 (Some 1000000) 0.15;
    mkTaxSlab 1000000 (Some 1250000) 0.20;
    mkTaxSlab 1250000 (Some 1500000) 0.25;
    mkTaxSlab 1500000 None 0.30 ].

Record AppliedSlab := mkAppliedSlab {
  range : list Piece;
  rate_label : string;
  amount : Q
}.

Record TaxCalculation := mkTaxCalculation {
  grossIncome : Q;
  deductions : Q;
  taxableIncome : Q;
  totalTax : Q;
  effectiveRate : Q;
  applied : list AppliedSlab
}.

(** The body of the loop over the slabs, on the locals [tax] and
    [appliedSlabs]. *)
Definition slab_step (taxableIncome : Q) (st : Q * list AppliedSlab) (slab : TaxSlab)
  : Q * list AppliedSlab :=
  let '(tax, appliedSlabs) := st in
  if taxableIncome >? min slab then
    let taxableInSlab :=
      (match max slab with
       | Some m => Math_min taxableIncome m
       | None => taxableIncome
       end) - min slab in
    let slabTax := taxableInSlab * rate slab in
    let tax := tax + slabTax in
    if slabTax >? 0 then
      (tax,
       appliedSlabs ++
       [ {| range := [Str "₹"; LocaleNum (min slab); Str " - ₹";
                      match max slab with
                      | Some m => LocaleNum m
                      | None => Str "∞"
                      end];
            rate_label := (toFixed0 (rate slab * 100) ++ "%")%string;
            amount := slabTax |} ])
    else (tax, appliedSlabs)
  else (tax, appliedSlabs).

(** utils.js: calculate tax based on Indian tax slabs (New Regime).
    [deductions = None] is a call that leaves the parameter out. *)
Definition calculateIndianTax (income : Q) (deductions : option Q) : TaxCalculation :=
  let deductions := match deductions with Some d => d | None => 0 end in
  let taxableIncome := Math_max 0 (income - deductions) in
  let '(tax, appliedSlabs) := fold_left (slab_step taxableIncome) slabs (0, []) in
  {| grossIncome := income;
     deductions := deductions;
     taxableIncome := taxableIncome;
     totalTax := tax;
     effectiveRate := if taxableIncome >? 0 then (tax / taxableIncome) * 100 else 0;
     applied := appliedSlabs |}.

(** main-simple.js: the same function written as a chain of branches,
    the chain of [TaxService.calculateIncomeTax]; it reports no slabs. *)
Definition calculateIndianTax_simple (income : Q) (deductions : option Q) : TaxCalculation :=
  let deductions := match deductions with Some d => d | None => 0 end in
  let taxableIncome := Math_max 0 (income - deductions) in
  let tax :=
    if taxableIncome <=? 250000 then
      0
    else if taxableIncome <=? 500000 then
      (taxableIncome - 250000) * 0.05
    else if taxableIncome <=? 750000 then
      12500 + (taxableIncome - 500000) * 0.10
    else if taxableIncome <=? 1000000 then
      37500 + (taxableIncome - 750000) * 0.15
    else if taxableIncome <=? 1250000 then
      75000 + (taxableIncome - 1000000) * 0.20
    else if taxableIncome <=? 1500000 then
      125000 + (taxableIncome - 1250000) * 0.25
    else
      187500 + (taxableIncome - 1500000) * 0.30 in
  {| grossIncome := income;
     deductions := deductions;
     taxableIncome := taxableIncome;
     totalTax := tax;
     effectiveRate := if taxableIncome >? 0 then (tax / taxableIncome) * 100 else 0;
     applied := [] |}.

Record AdvanceSchedule := mkAdvanceSchedule {
  june : Q;
  september : Q;
  december : Q;
  march : Q
}.

(** utils.js: calculate advance tax schedule. *)
Definition calculateAdvanceTax (totalTax : Q) : AdvanceSchedule :=
  {| june := Math_round (totalTax * 0.15);
     september := Math_round (totalTax * 0.45);
     december := Math_round (totalTax * 0.75);
     march := Math_round (totalTax * 1.0) |}.


Record DueDate := mkDueDate { month : Z; day : Z; name : string }.

Record NextDue := mkNextDue {
  date : Z;
  due_name : string;
  daysUntil : Q
}.

Section WithCalendar.

(** [Date_of year month day] is the time value, in milliseconds, of
    [new Date(year, month, day)]; [now] and [currentYear] are the time
    value and the [getFullYear()] of [new Date()]. *)
Variable Date_of : Z -> Z -> Z -> Z.
Variable now : Z.
Variable currentYear : Z.

Definition dueDates : list DueDate :=
  [ mkDueDate 5 15 "June 15";
    mkDueDate 8 15 "September 15";
    mkDueDate 11 15 "December 15";
    mkDueDate 2 15 "March 15" ].

(** utils.js: get next tax due date.  The loop returns at the first
    due date of the current year that lies after [now]. *)
Definition getNextTaxDueDate : NextDue :=
  match
    find (fun dueDate => (Date_of currentYear (month dueDate) (day dueDate) >? now)%Z)
      dueDates
  with
  | Some dueDate =>
      let dueDateObj := Date_of currentYear (month dueDate) (day dueDate) in
      {| date := dueDateObj;
         due_name := name dueDate;
         daysUntil :=
           Math_ceil (inject_Z (dueDateObj - now) / (1000 * 60 * 60 * 24)) |}
  | None =>
      (* If all dates have passed this year, return next year's first date *)
      let nextYear := (currentYear + 1)%Z in
      let firstDueDate := Date_of nextYear 5 15 in
      {| date := firstDueDate;
         due_name := "June 15";
         daysUntil :=
           Math_ceil (inject_Z (firstDueDate - now) / (1000 * 60 * 60 * 24)) |}
  end.

End WithCalendar.

End Client.

(** ** More sample data *)

Module Samples.

Import Models.

(** A calendar for examples: months of 31 days. *)
Definition Date_of (year month day : Z) : Z :=
  (((year * 12 + month) * 31 + day) * 86400000)%Z.

Definition request : InvoiceEndpoints.InvoiceRequest :=
  InvoiceEndpoints.mkInvoiceRequest "Acme  Web Studio" 50000 true true
    (Some (mkBankDetails "000" "X" "Other Bank" "x@upi")) "u1".

End Samples.

(** * Properties *)

(** ** Numbers: comparisons and rounding *)

Module NumberFacts.

Import JS.

Lemma leb_spec (x y : Q) : BoolSpec (x <= y) (y < x) (x <=? y).
Proof.
  unfold leb. destruct (Qle_bool x y) eqn:E; constructor.
  - now apply Qle_bool_iff.
  - apply Qnot_le_lt. intro H. apply Qle_bool_iff in H. congruence.
Qed.

Lemma gtb_spec (x y : Q) : BoolSpec (y < x) (x <= y) (x >? y).
Proof.
  unfold gtb. fold (leb x y). destruct (leb_spec x y); constructor; assumption.
Qed.

Lemma ltb_spec (x y : Q) : BoolSpec (x < y) (y <= x) (x <? y).
Proof.
  unfold ltb. fold (leb y x). destruct (leb_spec y x); constructor; assumption.
Qed.


(** [Math.round] is monotone. *)
Lemma Math_round_le (x y : Q) : x <= y -> Math_round x <= Math_round y.
Proof.
  intro H. unfold Math_round. rewrite <- Zle_Qle.
  apply Qfloor_resp_le. lra.
Qed.

(** [Math.round x] is a nearest integer: it is within one half of [x],
    and the upper one at a tie. *)
Lemma Math_round_nearest (x : Q) :
  x - 0.5 < Math_round x /\ Math_round x <= x + 0.5.
Proof.
  unfold Math_round. split.
  - pose proof (Qlt_floor (x + 0.5)) as H.
    rewrite inject_Z_plus in H. change (inject_Z 1) with 1 in H. lra.
  - apply Qfloor_le.
Qed.

Lemma Math_round_integer (z : Z) : Math_round (inject_Z z) = inject_Z z.
Proof.
  unfold Math_round. f_equal.
  pose proof (Qfloor_le (inject_Z z + 0.5)) as H1.
  pose proof (Qlt_floor (inject_Z z + 0.5)) as H2.
  set (f := Qfloor (inject_Z z + 0.5)) in *.
  assert (inject_Z f <= inject_Z z + 0.5) by exact H1.
  assert (K1 : inject_Z f < inject_Z (z + 1)).
  { rewrite inject_Z_plus. change (inject_Z 1) with 1. lra. }
  assert (K2 : inject_Z z < inject_Z (f + 1)) by lra.
  rewrite <- Zlt_Qlt in K1, K2. lia.
Qed.

Lemma Math_round_eq (x y : Q) : x == y -> Math_round x = Math_round y.
Proof.
  intro H. unfold Math_round. f_equal. apply Qfloor_comp. now rewrite H.
Qed.

End NumberFacts.

(** ** The slab tax *)

Module TaxFacts.

Import JS Models TaxService Spec NumberFacts.

(** Case analysis on every comparison of the goal. *)
Ltac js_cases :=
  repeat match goal with
         | |- context [JS.leb ?x ?y] => destruct (leb_spec x y)
         | |- context [JS.gtb ?x ?y] => destruct (gtb_spec x y)
         | |- context [JS.ltb ?x ?y] => destruct (ltb_spec x y)
         end.

(** Resolve [Qmin] and [Qmax] whose order follows from the context. *)
Ltac minmax :=
  repeat match goal with
         | |- context [Qmin ?a ?b] =>
             first [ rewrite (Q.min_l a b) by lra | rewrite (Q.min_r a b) by lra ]
         | |- context [Qmax ?a ?b] =>
             first [ rewrite (Q.max_l a b) by lra | rewrite (Q.max_r a b) by lra ]
         end.

Lemma progressive_tax_unfold (income : Q) :
  progressive_tax income ==
    0 * Qmax 0 (Qmin income 250000 - 0)
    + 0.05 * Qmax 0 (Qmin income 500000 - 250000)
    + 0.10 * Qmax 0 (Qmin income 750000 - 500000)
    + 0.15 * Qmax 0 (Qmin income 1000000 - 750000)
    + 0.20 * Qmax 0 (Qmin income 1250000 - 1000000)
    + 0.25 * Qmax 0 (Qmin income 1500000 - 1250000)
    + 0.30 * Qmax 0 (income - 1500000).
Proof.
  unfold progressive_tax, progressive, slabs, portion.
  cbn [fold_right rate upper lower]. ring.
Qed.

(** The code's chain of branches is the progressive tax of the slabs. *)
Lemma slabTax_progressive (income : Q) : slabTax income == progressive_tax income.
Proof.
  rewrite progressive_tax_unfold. unfold slabTax.
  js_cases; minmax; ring.
Qed.

(** The chain picks [branch i] on the [i]-th band. *)
Lemma slabTax_branch (x : Q) :
  (x <= 250000 -> slabTax x = branch 0 x)
  /\ (250000 < x <= 500000 -> slabTax x = branch 1 x)
  /\ (500000 < x <= 750000 -> slabTax x = branch 2 x)
  /\ (750000 < x <= 1000000 -> slabTax x = branch 3 x)
  /\ (1000000 < x <= 1250000 -> slabTax x = branch 4 x)
  /\ (1250000 < x <= 1500000 -> slabTax x = branch 5 x)
  /\ (1500000 < x -> slabTax x = branch 6 x).
Proof.
  unfold slabTax, branch.
  repeat split; intros; js_cases; try reflexivity; exfalso; lra.
Qed.

(** The tax before rounding grows with income, and by at most 30 paise
    per rupee. *)
Lemma slabTax_mono (x y : Q) : x <= y -> slabTax x <= slabTax y.
Proof.
  intro H. unfold slabTax. js_cases; lra.
Qed.

Lemma slabTax_lipschitz (x y : Q) : x <= y -> slabTax y - slabTax x <= 0.30 * (y - x).
Proof.
  intro H. unfold slabTax. js_cases; lra.
Qed.



(** C7: [calculateIncomeTax] is monotone on non-negative incomes, and
    the slab formula has no jump: at each of the six boundaries the
    branch used up to the boundary is the one the code takes there and it
    agrees with the branch used above it; the formula never grows by more
    than 0.30 per unit of income. *)
Theorem calculateIncomeTax_monotone_continuous (x y : Q) (Hx : 0 <= x) (Hxy : x <= y) :
  calculateIncomeTax x <= calculateIncomeTax y
  /\ (forall (i : nat) (b : Q), nth_error boundaries i = Some b ->
        slabTax b = branch i b
        /\ branch i b == branch (S i) b
        /\ (forall z, b < z ->
             (forall b', nth_error boundaries (S i) = Some b' -> z <= b') ->
             slabTax z = branch (S i) z))
  /\ (0 <= slabTax y - slabTax x /\ slabTax y - slabTax x <= 0.30 * (y - x)).
Proof.
  split; [|split].
  - unfold calculateIncomeTax. apply Math_round_le, slabTax_mono, Hxy.
  - intros i b Hb.
    assert (Above : forall z, b < z ->
              (forall b', nth_error boundaries (S i) = Some b' -> z <= b') ->
              slabTax z = branch (S i) z).
    { intros z Hz Hnext.
      destruct (slabTax_branch z) as (_ & B1 & B2 & B3 & B4 & B5 & B6).
      do 5 (destruct i as [|i];
            [injection Hb as <-; pose proof (Hnext _ eq_refl); auto|]).
      destruct i as [|i]; [injection Hb as <-; auto|].
      destruct i; discriminate. }
    split; [|split; [|exact Above]];
      do 6 (destruct i as [|i]; [injection Hb as <-; vm_compute; reflexivity|]);
      destruct i; discriminate.
  - split.
    + pose proof (slabTax_mono x y Hxy). lra.
    + apply slabTax_lipschitz, Hxy.
Qed.

Lemma calculateIncomeTax_monotone_continuous_witness :
  calculateIncomeTax 400000 <= calculateIncomeTax 600000.
Proof.
  apply (calculateIncomeTax_monotone_continuous 400000 600000); discriminate.
Defined.

End TaxFacts.

(** ** The advance-tax schedule *)

Module ScheduleFacts.

Import JS Models TaxService NumberFacts.

Local Open Scope string_scope.

(** C5: with [m] the current month (1 to 12) and [y] the current year,
    [getAdvanceTaxDue] reports 0% and "June 15, y" from January to May,
    15% and "September 15, y" from June to August, 45% and
    "December 15, y" from September to November, 75% and
    "March 15, y+1" in December; the amount due is the estimated tax
    times that fraction, rounded; in July an estimate of 10000 gives
    1500, due "September 15, y". *)
Theorem getAdvanceTaxDue_schedule (clock : Clock) (estimatedTax : Q) :
  let m := (getMonth (new_Date clock) + 1)%Z in
  let y := getFullYear (new_Date clock) in
  let due := getAdvanceTaxDue clock estimatedTax in
  (1 <= m <= 12)%Z ->
  ((1 <= m <= 5)%Z ->
     percentageDue due == 0
     /\ nextDueDate due = "June 15, " ++ show y
     /\ amountDue due = Math_round (estimatedTax * 0))
  /\ ((6 <= m <= 8)%Z ->
     percentageDue due == 15
     /\ nextDueDate due = "September 15, " ++ show y
     /\ amountDue due = Math_round (estimatedTax * 0.15))
  /\ ((9 <= m <= 11)%Z ->
     percentageDue due == 45
     /\ nextDueDate due = "December 15, " ++ show y
     /\ amountDue due = Math_round (estimatedTax * 0.45))
  /\ (m = 12%Z ->
     percentageDue due == 75
     /\ nextDueDate due = "March 15, " ++ show (y + 1)
     /\ amountDue due = Math_round (estimatedTax * 0.75))
  /\ (m = 7%Z -> estimatedTax == 10000 ->
     amountDue due == 1500 /\ nextDueDate due = "September 15, " ++ show y).
Proof.
  intros m y due Hm. subst due. unfold getAdvanceTaxDue. fold m. fold y.
  repeat split; intros;
    destruct (Z.ltb_spec m 6); try lia;
    destruct (Z.ltb_spec m 9); try lia;
    destruct (Z.ltb_spec m 12); try lia;
    cbn [amountDue nextDueDate percentageDue];
    try reflexivity.
  rewrite (Math_round_eq (estimatedTax * 0.15) (10000 * 0.15)).
  - reflexivity.
  - apply Qmult_comp; [assumption | reflexivity].
Qed.

Lemma getAdvanceTaxDue_schedule_witness :
  percentageDue (getAdvanceTaxDue Examples.clock 10000) == 15
  /\ nextDueDate (getAdvanceTaxDue Examples.clock 10000) = "September 15, 2026"
  /\ amountDue (getAdvanceTaxDue Examples.clock 10000) == 1500.
Proof.
  pose proof (getAdvanceTaxDue_schedule Examples.clock 10000) as H.
  cbv zeta in H. specialize (H ltac:(vm_compute; split; discriminate)).
  destruct H as (_ & H15 & _ & _ & HJuly).
  destruct (H15 ltac:(vm_compute; split; discriminate)) as (Hp & _ & _).
  destruct (HJuly eq_refl ltac:(reflexivity)) as (Ha & Hd).
  split; [exact Hp | split; [exact Hd | exact Ha]].
Defined.

End ScheduleFacts.

(** ** The tax summary *)

Module SummaryFacts.

Import JS Models TaxService Spec NumberFacts.

Lemma fold_left_plus {A : Type} (f : A -> Q) (l : list A) (a : Q) :
  fold_left (fun sum x => sum + f x) l a == a + total (map f l).
Proof.
  unfold total. revert a.
  induction l as [|x l IH]; intro a; cbn [fold_left map fold_right].
  - ring.
  - rewrite IH. ring.
Qed.

Section WithStores.

Variable User_findById : string -> option User.
Variable Income_find : string -> list Income.
Variable clock : Clock.

(** An unknown user makes the calculation throw. *)
Lemma calculateTax_not_found (userId : string) :
  User_findById userId = None ->
  calculateTax User_findById Income_find clock userId
  = Throw "Tax calculation failed: User not found".
Proof. intro H. unfold calculateTax. rewrite H. reflexivity. Qed.

(** A known user gets a summary, with these fields. *)
Lemma calculateTax_found (userId : string) (user : User) :
  User_findById userId = Some user ->
  exists summary,
    calculateTax User_findById Income_find clock userId = Ok summary
    /\ totalIncome summary
       = fold_left (fun sum income => sum + Models.amount income) (Income_find userId) 0
    /\ tdsCollected summary
       = fold_left (fun sum income => sum + applyTDS (Models.amount income))
           (filter tdsDeducted (Income_find userId)) 0
    /\ gstRequired summary
       = gstRegistered user && checkGSTThreshold (totalIncome summary)
    /\ incomeTax summary = calculateIncomeTax (totalIncome summary)
    /\ finalTaxPayable summary
       = Math_max 0 (incomeTax summary - tdsCollected summary).
Proof.
  intro H. unfold calculateTax. rewrite H. cbn [bind rethrow].
  eexists. split; [reflexivity|]. cbn. repeat split; reflexivity.
Qed.



End WithStores.



(** The summary of the first sample user, figure by figure. *)
Example calculateTax_sample :
  exists summary,
    calculateTax Examples.User_findById Examples.Income_find Examples.clock "u1"
    = Ok summary
    /\ totalIncome summary == 700000
    /\ tdsCollected summary == 10000
    /\ incomeTax summary == 32500
    /\ finalTaxPayable summary == 22500
    /\ gstRequired summary = false.
Proof.
  eexists. split; [vm_compute; reflexivity|]. repeat split; vm_compute; reflexivity.
Qed.

End SummaryFacts.

(** ** The regime comparison *)

Module RegimeFacts.

Import JS Models TaxService TaxController Spec NumberFacts.
Import TaxFacts.

Local Open Scope string_scope.
Local Open Scope Q_scope.





End RegimeFacts.

(** ** Invoices: the preview and the PDF *)

Module InvoiceFacts.

Import JS Models TaxController Spec NumberFacts.
Import InvoiceService InvoiceController.

Local Open Scope string_scope.
Local Open Scope Q_scope.

Lemma truthy_pos (x : Q) : 0 < x -> truthy x = true.
Proof.
  intro H. unfold truthy. destruct (Qeq_bool x 0) eqn:E; [|reflexivity].
  apply Qeq_bool_eq in E. exfalso. lra.
Qed.

(** A request with a client name, a user id and a positive amount is
    answered with a preview whose figures are the locals of the code. *)
Lemma getInvoicePreview_valid (clock : Clock) (client user : string)
  (amount : Q) (gst tds : bool) :
  nonempty client = true -> nonempty user = true -> 0 < amount ->
  exists p,
    getInvoicePreview clock (mkPreviewRequest client amount gst tds user)
    = mkResponse 200 true "Invoice preview generated successfully" (Some p)
    /\ basicAmount p = amount
    /\ gstAmount p = (if gst then Math_round (amount * 0.18) else 0)
    /\ tdsAmount p = (if tds then Math_round (amount * 0.10) else 0)
    /\ totalAmount p
       = (let total := amount in
          let total := if gst then total + Math_round (amount * 0.18) else total in
          if tds then total - Math_round (amount * 0.10) else total).
Proof.
  intros Hc Hu Ha. unfold getInvoicePreview.
  rewrite Hc, Hu, (truthy_pos amount Ha). cbn [negb orb].
  destruct (leb_spec amount 0) as [H|_]; [exfalso; lra|].
  destruct gst, tds; eexists; (split; [reflexivity|]); cbn; repeat split.
Qed.

(** The PDF prints, after "Total Amount", the value of its local
    [totalAmount], and a TDS or GST line exactly when the flag is set. *)
Lemma addInvoiceContent_printed (clock : Clock) (client : string) (amount : Q)
  (gst tds : bool) (bank : option BankDetails) :
  let doc := addInvoiceContent clock [] (mkInvoiceData client amount gst tds bank) in
  printed "Total Amount: ₹" doc
  = Some (let total := amount in
          let total := if gst then total + Math_round (amount * 0.18) else total in
          if tds then total - Math_round (amount * 0.10) else total)
  /\ printed "TDS (10%): ₹" doc
     = (if tds then Some (Math_round (amount * 0.10)) else None)
  /\ printed "GST (18%): ₹" doc
     = (if gst then Some (Math_round (amount * 0.18)) else None).
Proof.
  destruct gst, tds, bank; repeat split; reflexivity.
Qed.






End InvoiceFacts.

(** ** The deduction plan *)

Module DeductionFacts.

Import JS Models TaxService Spec NumberFacts.
Import TaxFacts.


Lemma sum_amounts_app (l1 l2 : list Deduction) :
  sum_amounts (l1 ++ l2) == sum_amounts l1 + sum_amounts l2.
Proof.
  unfold sum_amounts. induction l1 as [|d l1 IH]; cbn [app fold_right].
  - ring.
  - rewrite IH. ring.
Qed.

(** The loop over the expense entries appends the lines of
    [expense_lines] and adds their amounts. *)
Lemma expenses_fold (es : list (string * Q)) (d : list Deduction) (t : Q) :
  let r := fold_left
             (fun '(deductions, totalDeductions) '(category, amount) =>
                if amount >? 0 then
                  (push deductions
                     {| section := "Business Expense";
                        amount := amount;
                        description := (category ++ " - business expense")%string |},
                   totalDeductions + amount)
                else (deductions, totalDeductions))
             es (d, t) in
  fst r = d ++ expense_lines es /\ snd r == t + sum_amounts (expense_lines es).
Proof.
  revert d t. induction es as [|[category a] es IH]; intros d t; cbn [fold_left].
  - cbn. rewrite app_nil_r. split; [reflexivity | ring].
  - unfold expense_lines. cbn [filter snd fst].
    destruct (a >? 0).
    + destruct (IH (push d {| section := "Business Expense"; amount := a;
                              description := (category ++ " - business expense")%string |})
                  (t + a)) as [I1 I2].
      cbv zeta in I1, I2. split.
      * rewrite I1. unfold push. rewrite <- app_assoc. reflexivity.
      * rewrite I2. unfold expense_lines, sum_amounts.
        cbn [map fold_right amount fst snd]. ring.
    + apply IH.
Qed.

(** Evaluate the tests on the cap, which are closed, and the closed
    minima. *)
Ltac eval_caps :=
  repeat (match goal with
          | |- context [JS.ltb ?a ?b] =>
              let v := eval vm_compute in (JS.ltb a b) in change (JS.ltb a b) with v
          | |- context [JS.gtb ?a ?b] =>
              let v := eval vm_compute in (JS.gtb a b) in
              match v with true => idtac | false => idtac end;
              change (JS.gtb a b) with v
          end; cbv beta iota zeta delta [push andb]).

Ltac eval_min :=
  unfold Math_min;
  repeat match goal with
         | |- context [Qmin ?a ?b] =>
             let v := eval vm_compute in (Qmin a b) in change (Qmin a b) with v
         end.

(** The fields of the plan, in terms of the specification's lines. *)
Lemma calculateDeductions_fields (income : Q) (es : list (string * Q)) :
  let plan := calculateDeductions income (Some es) in
  recommendedDeductions plan = plan_lines income es
  /\ totalDeductions plan == sum_amounts (plan_lines income es)
  /\ taxableIncome plan = Qmax 0 (income - totalDeductions plan)
  /\ possibleSavings plan
     = calculateIncomeTax income - calculateIncomeTax (taxableIncome plan)
  /\ taxWithDeductions plan = calculateIncomeTax (taxableIncome plan).
Proof.
  unfold calculateDeductions, plan_lines, capped_lines, bucket, cap.
  cbn [fold_left]. unfold fill. cbn [threshold limit label text].
  destruct (income >? 300000), (income >? 400000), (income >? 500000).
  all: eval_caps.
  all: match goal with
       | |- context [fold_left ?f ?l ?i] =>
           assert (H : fst (fold_left f l i) = fst i ++ expense_lines l
                       /\ snd (fold_left f l i) == snd i + sum_amounts (expense_lines l))
             by exact (expenses_fold l (fst i) (snd i));
           destruct H as [H1 H2];
           destruct (fold_left f l i) as [d t]
       end.
  all: cbn [recommendedDeductions totalDeductions taxableIncome possibleSavings
              taxWithDeductions fst snd] in *.
  all: split; [rewrite H1, <- app_assoc; reflexivity|].
  all: split; [|repeat split; reflexivity].
  all: rewrite H2, !sum_amounts_app; unfold sum_amounts, home_office_line;
    cbn [app fold_right amount]; eval_min; ring.
Qed.

(** The capped bucket, band by band: the cap of 150,000 is reached only
    by the third line, so no line is ever cut. *)
Lemma capped_lines_cases (income : Q) :
  (income <= 300000 -> capped_lines income = [])
  /\ (300000 < income <= 400000 ->
      capped_lines income
      = [mkDeduction "80C - PPF" 50000 "Public Provident Fund contribution"])
  /\ (400000 < income <= 500000 ->
      capped_lines income
      = [mkDeduction "80C - PPF" 50000 "Public Provident Fund contribution";
         mkDeduction "80C - ELSS" 60000 "Equity Linked Savings Scheme"])
  /\ (500000 < income ->
      capped_lines income
      = [mkDeduction "80C - PPF" 50000 "Public Provident Fund contribution";
         mkDeduction "80C - ELSS" 60000 "Equity Linked Savings Scheme";
         mkDeduction "80C - Life Insurance" 40000 "Life insurance premium"]).
Proof.
  unfold capped_lines, bucket, cap. cbn [fold_left]. unfold fill.
  cbn [threshold limit label text].
  repeat split; intros;
    destruct (gtb_spec income 300000); try (exfalso; lra);
    destruct (gtb_spec income 400000); try (exfalso; lra);
    destruct (gtb_spec income 500000); try (exfalso; lra);
    eval_caps; reflexivity.
Qed.

(** C4: the plan of [calculateDeductions] is the greedy fill of the
    150,000 bucket (up to 50,000 above an income of 300,000, then up to
    60,000 above 400,000, then up to 40,000 above 500,000, each limited
    by what remains of the cap), then one line per expense entry with a
    positive amount, then the home-office line of [round (income * 0.25)],
    in this order; [totalDeductions] is the sum of the lines,
    [taxableIncome = max 0 (income - totalDeductions)],
    [possibleSavings] is the tax on the income minus the tax on the
    taxable income; up to 300,000 no line of the bucket appears, and the
    bucket never exceeds its cap. *)
Theorem calculateDeductions_greedy_bucket (income : Q) (expenses : list (string * Q)) :
  let plan := calculateDeductions income (Some expenses) in
  recommendedDeductions plan
  = capped_lines income ++ expense_lines expenses ++ [home_office_line income]
  /\ totalDeductions plan == sum_amounts (recommendedDeductions plan)
  /\ taxableIncome plan = Qmax 0 (income - totalDeductions plan)
  /\ possibleSavings plan
     = calculateIncomeTax income - calculateIncomeTax (taxableIncome plan)
  /\ (income <= 300000 ->
      capped_lines income = []
      /\ recommendedDeductions plan
         = expense_lines expenses ++ [home_office_line income])
  /\ sum_amounts (capped_lines income) <= cap.
Proof.
  intro plan.
  destruct (calculateDeductions_fields income expenses)
    as (Hlines & Htotal & Htaxable & Hsavings & _).
  fold plan in Hlines, Htotal, Htaxable, Hsavings. unfold plan_lines in Hlines.
  destruct (capped_lines_cases income) as (C0 & C1 & C2 & C3).
  split; [exact Hlines|]. split; [rewrite Hlines; exact Htotal|].
  split; [exact Htaxable|]. split; [exact Hsavings|]. split.
  - intro H. split; [exact (C0 H)|]. rewrite Hlines, (C0 H). reflexivity.
  - destruct (Qlt_le_dec 300000 income) as [H3|H3]; [|rewrite (C0 H3); discriminate].
    destruct (Qlt_le_dec 400000 income) as [H4|H4];
      [|rewrite (C1 (conj H3 H4)); discriminate].
    destruct (Qlt_le_dec 500000 income) as [H5|H5];
      [rewrite (C3 H5) | rewrite (C2 (conj H4 H5))]; discriminate.
Qed.

Lemma calculateDeductions_greedy_bucket_witness :
  250000 <= 300000
  /\ recommendedDeductions (calculateDeductions 250000 (Some Examples.expenses))
     = expense_lines Examples.expenses ++ [home_office_line 250000].
Proof.
  split; [discriminate|].
  apply (calculateDeductions_greedy_bucket 250000 Examples.expenses). discriminate.
Defined.

(** C2, as the specification has it, fails: for an income of 450,000
    the bucket also holds the market-linked line of 60,000, so the total
    is not 214,500 and the taxable income is not 235,500. *)
Lemma specified_total_214500_refuted :
  In (mkDeduction "80C - ELSS" 60000 "Equity Linked Savings Scheme")
     (recommendedDeductions (calculateDeductions 450000 (Some Examples.expenses)))
  /\ ~ totalDeductions (calculateDeductions 450000 (Some Examples.expenses)) == 214500
  /\ ~ taxableIncome (calculateDeductions 450000 (Some Examples.expenses)) == 235500.
Proof.
  split; [|split].
  - vm_compute. right. left. reflexivity.
  - vm_compute. discriminate.
  - vm_compute. discriminate.
Qed.

(** C2, amended: for an income of 450,000 and expenses of 40,000
    (laptop) and 12,000 (internet), the bucket holds the
    retirement-savings line of 50,000 and the market-linked line of
    60,000, the business-expense lines total 52,000, the home-office
    allowance is 112,500, [totalDeductions = 274,500],
    [taxableIncome = 175,500] and [possibleSavings = 10,000 - 0]. *)
Theorem calculateDeductions_at_450000 :
  let plan := calculateDeductions 450000 (Some Examples.expenses) in
  recommendedDeductions plan
  = [ mkDeduction "80C - PPF" 50000 "Public Provident Fund contribution";
      mkDeduction "80C - ELSS" 60000 "Equity Linked Savings Scheme";
      mkDeduction "Business Expense" 40000 "laptop - business expense";
      mkDeduction "Business Expense" 12000 "internet - business expense";
      mkDeduction "Home Office" 112500 "Home office allowance (25% of income)" ]
  /\ sum_amounts (expense_lines Examples.expenses) == 52000
  /\ Math_round (450000 * 0.25) == 112500
  /\ totalDeductions plan == 274500
  /\ taxableIncome plan == 175500
  /\ calculateIncomeTax 450000 == 10000
  /\ calculateIncomeTax (taxableIncome plan) == 0
  /\ possibleSavings plan == 10000.
Proof.
  cbv zeta. repeat split; vm_compute; reflexivity.
Qed.

End DeductionFacts.

(** ** Exact and binary64 arithmetic on the sample inputs *)

Module IEEEFacts.

Import JS.
Import IEEE (agree).

Lemma calculateIncomeTax_binary64 :
  forallb (fun n => agree (IEEE.calculateIncomeTax (IEEE.int n))
                      (TaxService.calculateIncomeTax (inject_Z n)))
    Examples.incomes = true.
Proof. vm_compute. reflexivity. Qed.

Lemma homeOfficeAllowance_binary64 :
  forallb (fun n => agree (IEEE.homeOfficeAllowance (IEEE.int n))
                      (Math_round (inject_Z n * 0.25)))
    Examples.incomes = true.
Proof. vm_compute. reflexivity. Qed.

Lemma oldRegimeTax_binary64 :
  forallb (fun n => agree (IEEE.oldRegimeTax (IEEE.int n))
                      (Spec.old_regime_tax (inject_Z n)))
    Examples.incomes = true.
Proof. vm_compute. reflexivity. Qed.

Lemma checkGSTThreshold_binary64 :
  forallb (fun n => Bool.eqb (IEEE.checkGSTThreshold (IEEE.int n))
                      (TaxService.checkGSTThreshold (inject_Z n)))
    Examples.incomes = true.
Proof. vm_compute. reflexivity. Qed.

Lemma applyTDS_binary64 :
  forallb (fun n => agree (IEEE.applyTDS (IEEE.int n))
                      (TaxService.applyTDS (inject_Z n)))
    Examples.amounts = true.
Proof. vm_compute. reflexivity. Qed.

Lemma totalAmount_binary64 :
  forallb (fun n =>
             forallb (fun flags =>
                        agree (IEEE.totalAmount (IEEE.int n) (fst flags) (snd flags))
                          (inject_Z n
                           + (if fst flags then Math_round (inject_Z n * 0.18) else 0)
                           - (if snd flags then Math_round (inject_Z n * 0.10) else 0)))
               [(true, true); (true, false); (false, true); (false, false)])
    Examples.amounts = true.
Proof. vm_compute. reflexivity. Qed.

Lemma advance_binary64 :
  forallb (fun n =>
             agree (IEEE.percentageDue n) (inject_Z n)
             && forallb (fun t => agree (IEEE.amountDue (IEEE.int t) n)
                                    (Math_round (inject_Z t * (inject_Z n / 100))))
                  Examples.amounts)
    [0; 15; 45; 75]%Z = true.
Proof. vm_compute. reflexivity. Qed.

End IEEEFacts.

(** * Further properties of the code *)

(** ** Rounding *)

Module RoundingFacts.

Import JS NumberFacts.

(** [Math.round x] is the integer [z] exactly when [x] lies in
    [[z - 1/2, z + 1/2)]. *)
Lemma Math_round_unique (x : Q) (z : Z) :
  inject_Z z - 0.5 <= x -> x < inject_Z z + 0.5 -> Math_round x = inject_Z z.
Proof.
  intros Hlo Hhi. unfold Math_round. f_equal.
  pose proof (Qfloor_le (x + 0.5)) as H1.
  pose proof (Qlt_floor (x + 0.5)) as H2.
  set (f := Qfloor (x + 0.5)) in *.
  rewrite inject_Z_plus in H2. change (inject_Z 1) with 1 in H2.
  assert (K1 : inject_Z f < inject_Z (z + 1)).
  { rewrite inject_Z_plus. change (inject_Z 1) with 1. lra. }
  assert (K2 : inject_Z z < inject_Z (f + 1)).
  { rewrite inject_Z_plus. change (inject_Z 1) with 1. lra. }
  rewrite <- Zlt_Qlt in K1, K2. lia.
Qed.

Lemma Math_round_zero (x : Q) : Math_round x == 0 <-> - 0.5 <= x /\ x < 0.5.
Proof.
  split.
  - intro H. destruct (Math_round_nearest x) as [H1 H2]. lra.
  - intros [H1 H2]. rewrite (Math_round_unique x 0); [reflexivity | |];
      change (inject_Z 0) with 0; lra.
Qed.

Lemma Math_round_nonneg (x : Q) : 0 <= x -> 0 <= Math_round x.
Proof.
  intro H. change 0 with (inject_Z 0) at 1.
  rewrite <- (Math_round_integer 0). apply Math_round_le.
  change (inject_Z 0) with 0. exact H.
Qed.

(** A fraction of an integer rounds to at most that integer. *)
Lemma Math_round_fraction (z : Z) (p : Q) :
  0 <= inject_Z z -> 0 <= p -> p <= 1 ->
  0 <= Math_round (inject_Z z * p) /\ Math_round (inject_Z z * p) <= inject_Z z.
Proof.
  intros Hz Hp0 Hp1. split.
  - apply Math_round_nonneg. nra.
  - rewrite <- (Math_round_integer z) at 2. apply Math_round_le. nra.
Qed.

End RoundingFacts.

(** ** services/taxService.js: bounds and the schedule *)

Module TaxExtra.

Import JS Models TaxService NumberFacts RoundingFacts.
Import TaxFacts.

Local Open Scope string_scope.
Local Open Scope Q_scope.

Lemma slabTax_nonneg (x : Q) : 0 <= slabTax x.
Proof. unfold slabTax. js_cases; lra. Qed.

(** Equal numbers get the same tax, however they are written. *)
Lemma slabTax_comp (x y : Q) : x == y -> slabTax x == slabTax y.
Proof.
  intro H. apply Qle_antisym; apply slabTax_mono; rewrite H; apply Qle_refl.
Qed.

Lemma calculateIncomeTax_comp (x y : Q) :
  x == y -> calculateIncomeTax x = calculateIncomeTax y.
Proof.
  intro H. unfold calculateIncomeTax. apply Math_round_eq, slabTax_comp, H.
Qed.

(** No tax is reported below an income of 250,010: the first half rupee
    of tax is reached there, and every income from there on, and no
    other, has a positive tax.  A negative income is not refused; its
    tax is 0. *)
Theorem calculateIncomeTax_zero_iff (income : Q) :
  calculateIncomeTax income == 0 <-> income < 250010.
Proof.
  unfold calculateIncomeTax. rewrite Math_round_zero. unfold slabTax.
  split.
  - intros [_ H]. revert H. js_cases; lra.
  - intro H. js_cases; lra.
Qed.

(** The tax is never negative and, for a non-negative income, never
    more than 30% of it. *)
Theorem calculateIncomeTax_bounds (income : Q) (Hincome : 0 <= income) :
  0 <= calculateIncomeTax income /\ calculateIncomeTax income <= 0.30 * income.
Proof.
  unfold calculateIncomeTax. split.
  - apply Math_round_nonneg, slabTax_nonneg.
  - destruct (Qlt_le_dec 250000 income) as [H|H].
    + destruct (Math_round_nearest (slabTax income)) as [_ Hup].
      assert (slabTax income + 0.5 <= 0.30 * income)
        by (unfold slabTax; js_cases; lra).
      lra.
    + assert (E : slabTax income = 0)
        by (unfold slabTax; js_cases; try reflexivity; exfalso; lra).
      rewrite E. change 0 with (inject_Z 0) at 1.
      rewrite (Math_round_integer 0). change (inject_Z 0) with 0. lra.
Qed.

Lemma calculateIncomeTax_bounds_witness :
  0 <= 800000 /\ calculateIncomeTax 800000 <= 0.30 * 800000.
Proof.
  split; [discriminate|].
  apply (calculateIncomeTax_bounds 800000). discriminate.
Defined.

(** The fraction of the estimated tax that [getAdvanceTaxDue] uses. *)
Lemma getAdvanceTaxDue_fraction (clock : Clock) (estimatedTax : Q) :
  exists p,
    amountDue (getAdvanceTaxDue clock estimatedTax) = Math_round (estimatedTax * p)
    /\ (p = 0 \/ p = 0.15 \/ p = 0.45 \/ p = 0.75).
Proof.
  unfold getAdvanceTaxDue.
  destruct (_ <? 6)%Z; [|destruct (_ <? 9)%Z; [|destruct (_ <? 12)%Z]];
    eexists; (split; [reflexivity|]); auto.
Qed.

(** For a non-negative estimate the amount due lies between 0 and the
    rounded estimate, and it never decreases from one month of the
    calendar year to a later one. *)
Theorem getAdvanceTaxDue_grows (clock1 clock2 : Clock) (estimatedTax : Q)
  (Htax : 0 <= estimatedTax)
  (Hmonth : (getMonth (new_Date clock1) <= getMonth (new_Date clock2))%Z) :
  0 <= amountDue (getAdvanceTaxDue clock1 estimatedTax)
  /\ amountDue (getAdvanceTaxDue clock1 estimatedTax)
     <= amountDue (getAdvanceTaxDue clock2 estimatedTax)
  /\ amountDue (getAdvanceTaxDue clock2 estimatedTax) <= Math_round estimatedTax.
Proof.
  split; [|split].
  - destruct (getAdvanceTaxDue_fraction clock1 estimatedTax) as (p & -> & Hp).
    apply Math_round_nonneg. destruct Hp as [->|[->|[->| ->]]]; lra.
  - unfold getAdvanceTaxDue.
    set (m1 := (getMonth (new_Date clock1) + 1)%Z).
    set (m2 := (getMonth (new_Date clock2) + 1)%Z).
    assert (Hm : (m1 <= m2)%Z) by (subst m1 m2; lia).
    destruct (Z.ltb_spec m1 6); destruct (Z.ltb_spec m2 6); try lia;
      destruct (Z.ltb_spec m1 9); destruct (Z.ltb_spec m2 9); try lia;
      destruct (Z.ltb_spec m1 12); destruct (Z.ltb_spec m2 12); try lia;
      cbn [amountDue]; apply Math_round_le; lra.
  - destruct (getAdvanceTaxDue_fraction clock2 estimatedTax) as (p & -> & Hp).
    apply Math_round_le. destruct Hp as [->|[->|[->| ->]]]; lra.
Qed.

Lemma getAdvanceTaxDue_grows_witness :
  amountDue (getAdvanceTaxDue (mkClock 0 (mkDate 2026 6 14)) 10000)
  <= amountDue (getAdvanceTaxDue (mkClock 0 (mkDate 2026 11 20)) 10000).
Proof.
  apply (getAdvanceTaxDue_grows (mkClock 0 (mkDate 2026 6 14))
           (mkClock 0 (mkDate 2026 11 20)) 10000); discriminate.
Defined.

(** The label of [getNextDueDate] is, whatever the user and the date,
    the [nextDueDate] of [getAdvanceTaxDue]; its GST due date is always
    absent. *)
Theorem getNextDueDate_label (clock : Clock) (userId : string) (estimatedTax : Q) :
  nextAdvanceTaxDue_label (getNextDueDate clock userId)
  = nextDueDate (getAdvanceTaxDue clock estimatedTax)
  /\ nextGSTDue (getNextDueDate clock userId) = None.
Proof.
  unfold getNextDueDate, getAdvanceTaxDue. split; [|reflexivity].
  destruct (_ <? 6)%Z; [|destruct (_ <? 9)%Z; [|destruct (_ <? 12)%Z]]; reflexivity.
Qed.

End TaxExtra.

(** ** services/taxService.js: the tax summary *)

Module SummaryExtra.

Import JS Models TaxService Spec NumberFacts RoundingFacts.
Import TaxFacts TaxExtra SummaryFacts.

Local Open Scope string_scope.
Local Open Scope Q_scope.

Lemma total_nonneg (l : list Q) : Forall (fun x => 0 <= x) l -> 0 <= total l.
Proof.
  unfold total. induction 1 as [|x l Hx _ IH]; cbn [fold_right]; lra.
Qed.



(** Every field of the summary of a known user. *)
Lemma calculateTax_summary (User_findById : string -> option User)
  (Income_find : string -> list Income) (clock : Clock)
  (userId : string) (user : User) :
  User_findById userId = Some user ->
  exists summary,
    calculateTax User_findById Income_find clock userId = Ok summary
    /\ totalIncome summary == total (map Models.amount (Income_find userId))
    /\ tdsCollected summary
       == total (map (fun income => applyTDS (Models.amount income))
                   (filter tdsDeducted (Income_find userId)))
    /\ gstRequired summary
       = gstRegistered user && checkGSTThreshold (totalIncome summary)
    /\ incomeTax summary = calculateIncomeTax (totalIncome summary)
    /\ finalTaxPayable summary = Qmax 0 (incomeTax summary - tdsCollected summary)
    /\ advanceTaxDue summary = amountDue (getAdvanceTaxDue clock (incomeTax summary))
    /\ nextAdvanceTaxDue summary
       = nextDueDate (getAdvanceTaxDue clock (incomeTax summary))
    /\ List.length (incomeBreakdown summary) = List.length (Income_find userId).
Proof.
  intro H. unfold calculateTax. rewrite H. cbn [bind rethrow].
  eexists. split; [reflexivity|].
  cbn [totalIncome tdsCollected gstRequired incomeTax finalTaxPayable advanceTaxDue
         nextAdvanceTaxDue incomeBreakdown].
  split; [rewrite fold_left_plus; apply Qplus_0_l|].
  split; [rewrite fold_left_plus; apply Qplus_0_l|].
  repeat split; try reflexivity. apply length_map.
Qed.

(** A known user without income records gets a summary of zeros, and no
    GST requirement even when registered. *)
Theorem calculateTax_no_income (User_findById : string -> option User)
  (Income_find : string -> list Income) (clock : Clock)
  (userId : string) (user : User)
  (Huser : User_findById userId = Some user)
  (Hnone : Income_find userId = []) :
  exists summary,
    calculateTax User_findById Income_find clock userId = Ok summary
    /\ totalIncome summary == 0
    /\ tdsCollected summary == 0
    /\ incomeTax summary == 0
    /\ finalTaxPayable summary == 0
    /\ advanceTaxDue summary == 0
    /\ gstRequired summary = false
    /\ incomeBreakdown summary = [].
Proof.
  destruct (calculateTax_summary User_findById Income_find clock userId user Huser)
    as (summary & Hok & Htotal & Htds & Hgst & Htax & Hfinal & Hadv & _ & Hlen).
  rewrite Hnone in Htotal, Htds, Hlen. cbn in Htotal, Htds, Hlen.
  assert (Etax : incomeTax summary = 0).
  { rewrite Htax, (calculateIncomeTax_comp _ 0 Htotal). reflexivity. }
  exists summary. split; [exact Hok|]. split; [exact Htotal|]. split; [exact Htds|].
  split; [rewrite Etax; reflexivity|].
  split; [rewrite Hfinal, Etax, Htds; reflexivity|].
  split.
  - rewrite Hadv, Etax.
    destruct (getAdvanceTaxDue_fraction clock 0) as (p & -> & Hp).
    destruct Hp as [->|[->|[->| ->]]]; reflexivity.
  - split.
    + rewrite Hgst. apply andb_false_intro2.
      unfold checkGSTThreshold. destruct (gtb_spec (totalIncome summary) 2000000); [|reflexivity].
      exfalso. lra.
    + destruct (incomeBreakdown summary); [reflexivity | discriminate].
Qed.

Lemma calculateTax_no_income_witness :
  exists summary,
    calculateTax Examples.User_findById (fun _ => []) Examples.clock "u1" = Ok summary
    /\ finalTaxPayable summary == 0.
Proof.
  destruct (calculateTax_no_income Examples.User_findById (fun _ => []) Examples.clock
              "u1" Examples.asha eq_refl eq_refl)
    as (summary & Hok & _ & _ & _ & Hfinal & _).
  exists summary. split; [exact Hok | exact Hfinal].
Defined.

(** When no recorded amount is negative, the summary of a known user has
    a non-negative [tdsCollected], a [finalTaxPayable] between 0 and the
    income tax that, together with the TDS, covers the income tax, and
    an advance tax due between 0 and the income tax. *)
Theorem calculateTax_bounds (User_findById : string -> option User)
  (Income_find : string -> list Income) (clock : Clock)
  (userId : string) (user : User)
  (Huser : User_findById userId = Some user)
  (Hamounts : Forall (fun income => 0 <= Models.amount income) (Income_find userId)) :
  exists summary,
    calculateTax User_findById Income_find clock userId = Ok summary
    /\ 0 <= totalIncome summary
    /\ 0 <= tdsCollected summary
    /\ 0 <= incomeTax summary
    /\ (0 <= finalTaxPayable summary /\ finalTaxPayable summary <= incomeTax summary)
    /\ incomeTax summary <= finalTaxPayable summary + tdsCollected summary
    /\ (0 <= advanceTaxDue summary /\ advanceTaxDue summary <= incomeTax summary).
Proof.
  destruct (calculateTax_summary User_findById Income_find clock userId user Huser)
    as (summary & Hok & Htotal & Htds & _ & Htax & Hfinal & Hadv & _).
  assert (T : 0 <= totalIncome summary).
  { rewrite Htotal. apply total_nonneg. apply Forall_map. exact Hamounts. }
  assert (D : 0 <= tdsCollected summary).
  { rewrite Htds. apply total_nonneg. apply Forall_map.
    apply Forall_forall. intros income Hin.
    apply filter_In in Hin. destruct Hin as [Hin _].
    unfold applyTDS. apply Math_round_nonneg.
    pose proof (proj1 (Forall_forall _ _) Hamounts income Hin) as Ha. cbv beta in Ha. lra. }
  assert (I : 0 <= incomeTax summary).
  { rewrite Htax. apply Math_round_nonneg, slabTax_nonneg. }
  exists summary. split; [exact Hok|]. split; [exact T|]. split; [exact D|].
  split; [exact I|].
  split; [rewrite Hfinal; split; [apply Q.le_max_l | apply Q.max_lub; lra]|].
  split.
  - rewrite Hfinal.
    pose proof (Q.le_max_r 0 (incomeTax summary - tdsCollected summary)). lra.
  - rewrite Hadv.
    destruct (getAdvanceTaxDue_fraction clock (incomeTax summary)) as (p & -> & Hp).
    revert I. rewrite Htax. unfold calculateIncomeTax, Math_round at 1 2 3. intro I.
    apply Math_round_fraction; [exact I | |]; destruct Hp as [->|[->|[->| ->]]]; lra.
Qed.

Lemma calculateTax_bounds_witness :
  exists summary,
    calculateTax Examples.User_findById Examples.Income_find Examples.clock "u1"
    = Ok summary
    /\ finalTaxPayable summary <= incomeTax summary.
Proof.
  destruct (calculateTax_bounds Examples.User_findById Examples.Income_find
              Examples.clock "u1" Examples.asha eq_refl)
    as (summary & Hok & _ & _ & _ & (_ & Hfinal) & _).
  { vm_compute. repeat constructor; discriminate. }
  exists summary. split; [exact Hok | exact Hfinal].
Defined.



End SummaryExtra.

(** ** services/taxService.js: the deduction plan *)

Module DeductionExtra.

Import JS Models TaxService Spec NumberFacts RoundingFacts.
Import TaxFacts TaxExtra DeductionFacts.

Local Open Scope Q_scope.

Lemma expense_lines_positive (es : list (string * Q)) :
  expense_lines (filter (fun e => snd e >? 0) es) = expense_lines es.
Proof.
  unfold expense_lines. f_equal.
  induction es as [|e es IH]; cbn [filter]; [reflexivity|].
  destruct (snd e >? 0) eqn:E; cbn [filter]; [rewrite E; f_equal|]; exact IH.
Qed.

Lemma expense_lines_nonneg (es : list (string * Q)) :
  0 <= sum_amounts (expense_lines es).
Proof.
  unfold expense_lines, sum_amounts.
  induction es as [|e es IH]; cbn [filter map fold_right]; [lra|].
  destruct (gtb_spec (snd e) 0); cbn [map fold_right amount]; lra.
Qed.

Lemma capped_lines_nonneg (income : Q) : 0 <= sum_amounts (capped_lines income).
Proof.
  destruct (capped_lines_cases income) as (C0 & C1 & C2 & C3).
  destruct (Qlt_le_dec 300000 income) as [H3|H3]; [|rewrite (C0 H3); discriminate].
  destruct (Qlt_le_dec 400000 income) as [H4|H4];
    [|rewrite (C1 (conj H3 H4)); discriminate].
  destruct (Qlt_le_dec 500000 income) as [H5|H5];
    [rewrite (C3 H5) | rewrite (C2 (conj H4 H5))]; discriminate.
Qed.

Lemma calculateIncomeTax_le (x y : Q) :
  x <= y -> calculateIncomeTax x <= calculateIncomeTax y.
Proof.
  intro H. unfold calculateIncomeTax. apply Math_round_le, slabTax_mono, H.
Qed.

(** A missing expense object is an empty one, and entries whose amount
    is not positive change nothing in the plan. *)
Theorem calculateDeductions_skips (income : Q) (expenses : list (string * Q)) :
  calculateDeductions income None = calculateDeductions income (Some [])
  /\ recommendedDeductions (calculateDeductions income (Some expenses))
     = recommendedDeductions
         (calculateDeductions income (Some (filter (fun e => snd e >? 0) expenses)))
  /\ totalDeductions (calculateDeductions income (Some expenses))
     == totalDeductions
          (calculateDeductions income (Some (filter (fun e => snd e >? 0) expenses)))
  /\ taxableIncome (calculateDeductions income (Some expenses))
     == taxableIncome
          (calculateDeductions income (Some (filter (fun e => snd e >? 0) expenses)))
  /\ possibleSavings (calculateDeductions income (Some expenses))
     == possibleSavings
          (calculateDeductions income (Some (filter (fun e => snd e >? 0) expenses))).
Proof.
  split; [reflexivity|].
  destruct (calculateDeductions_fields income expenses)
    as (L1 & T1 & X1 & S1 & _).
  destruct (calculateDeductions_fields income (filter (fun e => snd e >? 0) expenses))
    as (L2 & T2 & X2 & S2 & _).
  cbv zeta in *. unfold plan_lines in *.
  rewrite expense_lines_positive in L2, T2.
  assert (T : totalDeductions (calculateDeductions income (Some expenses))
              == totalDeductions
                   (calculateDeductions income
                      (Some (filter (fun e => snd e >? 0) expenses))))
    by (rewrite T1, T2; reflexivity).
  assert (X : taxableIncome (calculateDeductions income (Some expenses))
              == taxableIncome
                   (calculateDeductions income
                      (Some (filter (fun e => snd e >? 0) expenses))))
    by (rewrite X1, X2, T; reflexivity).
  split; [rewrite L1, L2; reflexivity|]. split; [exact T|]. split; [exact X|].
  rewrite S1, S2, (calculateIncomeTax_comp _ _ X). reflexivity.
Qed.

(** For a non-negative income the plan deducts at least the home-office
    quarter, leaves a taxable income between 0 and the income (and at
    most three quarters of it, up to rounding), and reports savings
    between 0 and the tax on the full income. *)
Theorem calculateDeductions_bounds (income : Q) (expenses : list (string * Q))
  (Hincome : 0 <= income) :
  Math_round (income * 0.25)
  <= totalDeductions (calculateDeductions income (Some expenses))
  /\ (0 <= taxableIncome (calculateDeductions income (Some expenses))
      /\ taxableIncome (calculateDeductions income (Some expenses)) <= income
      /\ taxableIncome (calculateDeductions income (Some expenses))
         <= 0.75 * income + 0.5)
  /\ (0 <= possibleSavings (calculateDeductions income (Some expenses))
      /\ possibleSavings (calculateDeductions income (Some expenses))
         <= calculateIncomeTax income)
  /\ taxWithDeductions (calculateDeductions income (Some expenses))
     <= calculateIncomeTax income.
Proof.
  destruct (calculateDeductions_fields income expenses)
    as (_ & T & X & S & W).
  cbv zeta in *. unfold plan_lines in T.
  rewrite !sum_amounts_app in T. unfold sum_amounts at 3 in T.
  cbn [fold_right home_office_line amount] in T.
  pose proof (capped_lines_nonneg income) as C.
  pose proof (expense_lines_nonneg expenses) as E.
  pose proof (Math_round_nonneg (income * 0.25) ltac:(lra)) as R0.
  destruct (Math_round_nearest (income * 0.25)) as [R1 _].
  set (plan := calculateDeductions income (Some expenses)) in *.
  assert (D : Math_round (income * 0.25) <= totalDeductions plan) by lra.
  assert (X0 : 0 <= taxableIncome plan) by (rewrite X; apply Q.le_max_l).
  assert (X1 : taxableIncome plan <= income) by (rewrite X; apply Q.max_lub; lra).
  assert (X2 : taxableIncome plan <= 0.75 * income + 0.5)
    by (rewrite X; apply Q.max_lub; lra).
  pose proof (calculateIncomeTax_le _ _ X1) as M.
  pose proof (Math_round_nonneg _ (slabTax_nonneg (taxableIncome plan))) as N.
  fold (calculateIncomeTax (taxableIncome plan)) in N.
  split; [exact D|]. split; [auto|]. split; [rewrite S; split; lra|].
  rewrite W. exact M.
Qed.

Lemma calculateDeductions_bounds_witness :
  0 <= 450000
  /\ taxableIncome (calculateDeductions 450000 (Some Examples.expenses)) <= 450000.
Proof.
  split; [discriminate|].
  apply (calculateDeductions_bounds 450000 Examples.expenses). discriminate.
Defined.

End DeductionExtra.

(** ** services/invoiceService.js: the invoice data and the document *)

Module InvoiceExtra.

Import JS Models NumberFacts RoundingFacts.
Import InvoiceService.

Local Open Scope string_scope.
Local Open Scope Q_scope.
Local Open Scope list_scope.

(** [getInvoiceData] fails for an unknown user; for a known one it keeps
    the client, the amount and the flags of the invoice and takes the
    bank details from the stored user (all fields empty when the user
    has none): bank details given with the invoice are never used. *)
Theorem getInvoiceData_stored_bank (User_findById : string -> option User)
  (userId : string) (invoiceData : InvoiceData) :
  (User_findById userId = None ->
   getInvoiceData User_findById userId invoiceData
   = Throw "Failed to get invoice data: User not found")
  /\ (forall user, User_findById userId = Some user ->
      getInvoiceData User_findById userId invoiceData
      = Ok (mkInvoiceData (clientName invoiceData) (amount invoiceData)
              (gstApplicable invoiceData) (tds invoiceData)
              (Some (match Models.bankDetails user with
                     | Some stored => stored
                     | None => mkBankDetails "" "" "" ""
                     end))))
  /\ (forall given,
      getInvoiceData User_findById userId
        (mkInvoiceData (clientName invoiceData) (amount invoiceData)
           (gstApplicable invoiceData) (tds invoiceData) given)
      = getInvoiceData User_findById userId invoiceData).
Proof.
  unfold getInvoiceData. split; [|split].
  - intros ->. reflexivity.
  - intros user ->. reflexivity.
  - intro given. destruct (User_findById userId); reflexivity.
Qed.

Lemma getInvoiceData_stored_bank_witness :
  Examples.User_findById "u2" = Some Examples.ravi
  /\ getInvoiceData Examples.User_findById "u2"
       (mkInvoiceData "Acme" 50000 true true
          (Some (mkBankDetails "000" "X" "Other Bank" "x@upi")))
     = Ok (mkInvoiceData "Acme" 50000 true true (Some (mkBankDetails "" "" "" ""))).
Proof.
  split; [reflexivity|].
  exact (proj1 (proj2 (getInvoiceData_stored_bank Examples.User_findById "u2"
                         (mkInvoiceData "Acme" 50000 true true
                            (Some (mkBankDetails "000" "X" "Other Bank" "x@upi")))))
           Examples.ravi eq_refl).
Defined.

(** [addInvoiceContent] only appends: the calls already made on the
    document stay in front, followed by what it writes on a new one. *)
Theorem addInvoiceContent_appends (clock : Clock) (doc : PDFDocument)
  (invoiceData : InvoiceData) :
  addInvoiceContent clock doc invoiceData
  = doc ++ addInvoiceContent clock [] invoiceData.
Proof.
  destruct invoiceData as [client amount gst tds bank].
  unfold addInvoiceContent.
  destruct tds, gst, bank; cbn [app]; repeat rewrite <- app_assoc; reflexivity.
Qed.



End InvoiceExtra.

(** ** controllers/invoiceController.js: the PDF and the calculator *)

Module InvoiceEndpointFacts.

Import JS Models NumberFacts RoundingFacts.
Import TaxEndpoints InvoiceEndpoints.
Import InvoiceFacts.

Local Open Scope string_scope.
Local Open Scope Q_scope.
Local Open Scope list_scope.

(** The total the PDF prints is the [totalAmount] of the preview. *)
Lemma pdf_preview_total (pdfClock previewClock : Clock) (client user : string)
  (bank : option BankDetails) (amount : Q) (gst tds : bool) :
  nonempty client = true -> nonempty user = true -> 0 < amount ->
  exists p,
    TaxController.data
      (InvoiceController.getInvoicePreview previewClock
         (InvoiceController.mkPreviewRequest client amount gst tds user)) = Some p
    /\ InvoiceService.printed "Total Amount: ₹"
         (InvoiceService.addInvoiceContent pdfClock []
            (InvoiceService.mkInvoiceData client amount gst tds bank))
       = Some (InvoiceController.totalAmount p).
Proof.
  intros Hc Hu Ha.
  destruct (getInvoicePreview_valid previewClock client user amount gst tds Hc Hu Ha)
    as (p & Hp & _ & _ & _ & Htotal).
  destruct (addInvoiceContent_printed pdfClock client amount gst tds bank)
    as (Ptotal & _).
  exists p. rewrite Hp. split; [reflexivity|]. rewrite Htotal. exact Ptotal.
Qed.

(** [generateInvoice] and [getInvoicePreview] refuse the same requests,
    with the same message; a request the preview accepts gets a PDF or,
    when the invoice data cannot be fetched, the answer 500. *)
Theorem generateInvoice_validation (User_findById : string -> option User)
  (clock previewClock : Clock) (now : Z) (body : InvoiceRequest) :
  let preview := InvoiceController.getInvoicePreview previewClock (InvoiceController.mkPreviewRequest (clientName body) (amount body)
         (gstApplicable body) (tds body) (userId body)) in
  let answer := generateInvoice User_findById clock now body in
  (TaxController.status preview = 400%Z \/ TaxController.status preview = 200%Z)
  /\ (TaxController.status preview = 400%Z ->
      answer = json (mkReply 400 false (TaxController.message preview) None None))
  /\ (TaxController.status preview = 200%Z ->
      (exists headers pdfBuffer, answer = send headers pdfBuffer)
      \/ (exists m,
            answer = json (mkReply 500 false "Failed to generate invoice" None (Some m)))).
Proof.
  destruct body as [client amount gst tds bank user].
  cbn [clientName InvoiceEndpoints.amount gstApplicable InvoiceEndpoints.tds userId].
  unfold generateInvoice, InvoiceController.getInvoicePreview.
  destruct (negb (nonempty client) || negb (truthy amount) || negb (nonempty user)).
  - cbn. split; [left; reflexivity|]. split; [reflexivity | discriminate].
  - destruct (amount <=? 0).
    + cbn. split; [left; reflexivity|]. split; [reflexivity | discriminate].
    + split; [right; destruct gst, tds; reflexivity|].
      split; [destruct gst, tds; discriminate|]. intros _.
      unfold InvoiceService.getInvoiceData.
      destruct (User_findById user); cbn [rethrow bind InvoiceService.generateInvoice].
      * left. eexists. eexists. reflexivity.
      * right. eexists. reflexivity.
Qed.

(** For an unknown user the preview still answers with its figures (it
    never looks the user up), while the PDF endpoint answers 500 with
    the message of the failed lookup. *)
Theorem generateInvoice_unknown_user (User_findById : string -> option User)
  (clock previewClock : Clock) (now : Z) (body : InvoiceRequest)
  (Hclient : nonempty (clientName body) = true)
  (Huser : nonempty (userId body) = true)
  (Hamount : 0 < amount body)
  (Hunknown : User_findById (userId body) = None) :
  generateInvoice User_findById clock now body
  = json (mkReply 500 false "Failed to generate invoice" None
            (Some "Failed to get invoice data: User not found"))
  /\ exists p,
       InvoiceController.getInvoicePreview previewClock (InvoiceController.mkPreviewRequest (clientName body) (amount body)
         (gstApplicable body) (tds body) (userId body))
       = TaxController.mkResponse 200 true "Invoice preview generated successfully"
           (Some p).
Proof.
  destruct body as [client amount gst tds bank user].
  cbn [clientName InvoiceEndpoints.amount gstApplicable InvoiceEndpoints.tds userId] in *.
  split.
  - unfold generateInvoice. rewrite Hclient, Huser, (truthy_pos amount Hamount).
    cbn [negb orb]. destruct (leb_spec amount 0) as [H|_]; [exfalso; lra|].
    unfold InvoiceService.getInvoiceData. rewrite Hunknown. reflexivity.
  - destruct (getInvoicePreview_valid previewClock client user amount gst tds
                Hclient Huser Hamount) as (p & Hp & _).
    exists p. exact Hp.
Qed.

Lemma generateInvoice_unknown_user_witness :
  generateInvoice (fun _ => None) Examples.clock 1784000000123 Samples.request
  = json (mkReply 500 false "Failed to generate invoice" None
            (Some "Failed to get invoice data: User not found")).
Proof.
  apply (generateInvoice_unknown_user (fun _ => None) Examples.clock Examples.clock
           1784000000123 Samples.request eq_refl eq_refl eq_refl eq_refl).
Defined.

(** For a known user and a request the validation accepts, the answer
    is the PDF of the invoice with the user's stored bank details (the
    ones of the request are not used), named
    [invoice-<client>-<now>.pdf] with the white space of the client name
    turned into dashes; the total it prints is the [totalAmount] of the
    preview of the same request. *)
Theorem generateInvoice_pdf (User_findById : string -> option User)
  (clock previewClock : Clock) (now : Z) (body : InvoiceRequest) (user : User)
  (Hclient : nonempty (clientName body) = true)
  (Huser : nonempty (userId body) = true)
  (Hamount : 0 < amount body)
  (Hknown : User_findById (userId body) = Some user) :
  let stored :=
    match Models.bankDetails user with
    | Some stored => stored
    | None => mkBankDetails "" "" "" ""
    end in
  let pdfBuffer :=
    InvoiceService.addInvoiceContent clock []
      (InvoiceService.mkInvoiceData (clientName body) (amount body)
         (gstApplicable body) (tds body) (Some stored)) in
  let filename :=
    ("invoice-" ++ replace_whitespace (clientName body) ++ "-" ++ show now ++ ".pdf")%string in
  generateInvoice User_findById clock now body
  = send [ContentType "application/pdf";
          ContentDisposition ("attachment; filename=" ++ dquote ++ filename ++ dquote);
          ContentLength pdfBuffer]
      pdfBuffer
  /\ (exists p,
        TaxController.data
          (InvoiceController.getInvoicePreview previewClock (InvoiceController.mkPreviewRequest (clientName body) (amount body)
         (gstApplicable body) (tds body) (userId body))) = Some p
        /\ InvoiceService.printed "Total Amount: ₹" pdfBuffer
           = Some (InvoiceController.totalAmount p))
  /\ (forall given,
        generateInvoice User_findById clock now
          (mkInvoiceRequest (clientName body) (amount body) (gstApplicable body)
             (tds body) given (userId body))
        = generateInvoice User_findById clock now body).
Proof.
  intros stored pdfBuffer filename.
  destruct body as [client amount gst tds bank uid].
  cbn [clientName InvoiceEndpoints.amount gstApplicable InvoiceEndpoints.tds userId] in *.
  assert (G : forall given,
             generateInvoice User_findById clock now
               (mkInvoiceRequest client amount gst tds given uid)
             = send [ContentType "application/pdf";
                     ContentDisposition
                       ("attachment; filename=" ++ dquote ++ filename ++ dquote);
                     ContentLength pdfBuffer]
                 pdfBuffer).
  { intro given. unfold generateInvoice.
    rewrite Hclient, Huser, (truthy_pos amount Hamount).
    cbn [negb orb]. destruct (leb_spec amount 0) as [H|_]; [exfalso; lra|].
    unfold InvoiceService.getInvoiceData. rewrite Hknown.
    rewrite !orb_false_r. reflexivity. }
  split; [apply G|]. split.
  - destruct (pdf_preview_total clock previewClock client uid (Some stored) amount gst tds
                Hclient Huser Hamount) as (p & Hp & Ht).
    exists p. split; [exact Hp | exact Ht].
  - intro given. rewrite !G. reflexivity.
Qed.

Lemma generateInvoice_pdf_witness :
  exists headers,
    generateInvoice Examples.User_findById Examples.clock 1784000000123 Samples.request
    = send headers
        (InvoiceService.addInvoiceContent Examples.clock []
           (InvoiceService.mkInvoiceData "Acme  Web Studio" 50000 true true
              (Some (mkBankDetails "1234567890" "HDFC0001234" "HDFC Bank" "")))).
Proof.
  eexists.
  exact (proj1 (generateInvoice_pdf Examples.User_findById Examples.clock Examples.clock
                  1784000000123 Samples.request Examples.asha
                  eq_refl eq_refl eq_refl eq_refl)).
Defined.



End InvoiceEndpointFacts.

(** ** controllers/incomeController.js: the income summary *)

Module IncomeSummaryFacts.

Import JS Models Spec NumberFacts RoundingFacts.
Import TaxEndpoints IncomeController.
Import SummaryFacts SummaryExtra.

Local Open Scope string_scope.
Local Open Scope Q_scope.
Local Open Scope list_scope.

(** Without income records the summary is all zeros: the average is not
    computed, so nothing is divided by the number of entries. *)
Theorem getIncomeSummary_no_income (Income_find : string -> list Income)
  (userId : string)
  (Huser : nonempty userId = true) (Hnone : Income_find userId = []) :
  getIncomeSummary Income_find userId
  = mkReply 200 true "Income summary retrieved successfully"
      (Some (mkSummary 0 0 0 0 0)) None.
Proof.
  unfold getIncomeSummary. rewrite Huser, Hnone. reflexivity.
Qed.

Lemma getIncomeSummary_no_income_witness :
  getIncomeSummary (fun _ => []) "u1"
  = mkReply 200 true "Income summary retrieved successfully"
      (Some (mkSummary 0 0 0 0 0)) None.
Proof.
  apply (getIncomeSummary_no_income (fun _ => []) "u1"); reflexivity.
Defined.

(** The sum of the rounded tenths stays within half a unit per term of
    the sum of the tenths. *)
Lemma rounded_tenths (l : list Income) :
  total (map (fun income => amount income * 0.10) l)
  - inject_Z (Z.of_nat (List.length l)) / 2
  <= total (map (fun income => TaxService.applyTDS (amount income)) l)
  /\ total (map (fun income => TaxService.applyTDS (amount income)) l)
     <= total (map (fun income => amount income * 0.10) l)
        + inject_Z (Z.of_nat (List.length l)) / 2.
Proof.
  unfold total. induction l as [|income l [IH1 IH2]].
  - cbn. split; discriminate.
  - cbn [map fold_right List.length].
    rewrite Nat2Z.inj_succ, <- Z.add_1_r, inject_Z_plus.
    change (inject_Z 1) with 1.
    destruct (Math_round_nearest (amount income * 0.10)) as [R1 R2].
    unfold TaxService.applyTDS at 1 3.
    unfold Qdiv in *. change (/ 2) with (1 # 2) in *. split; lra.
Qed.

(** A sum of tenths of multiples of ten is an integer, and rounding
    changes none of the terms. *)
Lemma whole_tenths (l : list Income) :
  Forall (fun income => exists z, amount income == inject_Z (10 * z)) l ->
  exists z,
    total (map (fun income => amount income * 0.10) l) == inject_Z z
    /\ total (map (fun income => TaxService.applyTDS (amount income)) l) == inject_Z z.
Proof.
  unfold total. induction 1 as [|income l [z Hz] _ [s [IH1 IH2]]].
  - exists 0%Z. cbn. split; reflexivity.
  - exists (z + s)%Z. cbn [map fold_right].
    assert (E : amount income * 0.10 == inject_Z z).
    { rewrite Hz, inject_Z_mult. change (inject_Z 10) with 10. field. }
    rewrite inject_Z_plus. split.
    + rewrite E, IH1. reflexivity.
    + unfold TaxService.applyTDS at 1.
      rewrite (Math_round_eq _ _ E), Math_round_integer, IH2. reflexivity.
Qed.

(** The income summary and the tax summary of the same records report
    the same total income, but not always the same TDS: the income
    summary rounds the sum of the tenths, the tax summary sums the
    rounded tenths.  With [k] records flagged [tdsDeducted] the two
    differ by at most [(k + 1) / 2], and they agree when every flagged
    amount is a whole multiple of ten. *)
Theorem getIncomeSummary_and_calculateTax (User_findById : string -> option User)
  (Income_find : string -> list Income) (clock : Clock)
  (userId : string) (user : User)
  (Hid : nonempty userId = true)
  (Huser : User_findById userId = Some user) :
  let flagged := filter tdsDeducted (Income_find userId) in
  let k := inject_Z (Z.of_nat (List.length flagged)) in
  exists summary tax,
    getIncomeSummary Income_find userId
    = mkReply 200 true "Income summary retrieved successfully" (Some summary) None
    /\ TaxService.calculateTax User_findById Income_find clock userId = Ok tax
    /\ totalIncome summary = TaxService.totalIncome tax
    /\ totalEntries summary
       = Z.of_nat (List.length (TaxService.incomeBreakdown tax))
    /\ (TaxService.tdsCollected tax - (k + 1) / 2 <= tdsCollected summary
        /\ tdsCollected summary <= TaxService.tdsCollected tax + (k + 1) / 2)
    /\ (Forall (fun income => exists z, amount income == inject_Z (10 * z)) flagged ->
        tdsCollected summary == TaxService.tdsCollected tax).
Proof.
  intros flagged k.
  destruct (calculateTax_summary User_findById Income_find clock userId user Huser)
    as (tax & Hok & _ & Htds & _ & _ & _ & _ & _ & Hlen).
  destruct (calculateTax_found User_findById Income_find clock userId user Huser)
    as (tax' & Hok' & Htotal & _).
  rewrite Hok in Hok'. injection Hok' as <-.
  unfold getIncomeSummary. rewrite Hid. cbn [negb].
  eexists. exists tax. split; [reflexivity|]. split; [exact Hok|].
  cbn [totalIncome totalEntries tdsCollected].
  split; [rewrite Htotal; reflexivity|]. split; [rewrite Hlen; reflexivity|].
  set (S := total (map (fun income => amount income * 0.10) flagged)).
  match goal with
  | |- context [Math_round ?x] =>
      assert (E : Math_round x = Math_round S)
        by (apply Math_round_eq; subst S flagged; rewrite fold_left_plus;
            apply Qplus_0_l)
  end.
  rewrite E. fold flagged in Htds. split.
  - destruct (rounded_tenths flagged) as [R1 R2]. fold S in R1, R2. fold k in R1, R2.
    destruct (Math_round_nearest S) as [N1 N2].
    rewrite Htds. unfold Qdiv in *. change (/ 2) with (1 # 2) in *. split; lra.
  - intro Hten. destruct (whole_tenths flagged Hten) as (z & W1 & W2). fold S in W1.
    rewrite Htds, W2, (Math_round_eq _ _ W1), Math_round_integer. reflexivity.
Qed.

Lemma getIncomeSummary_and_calculateTax_witness :
  exists summary tax,
    getIncomeSummary Examples.Income_find "u1"
    = mkReply 200 true "Income summary retrieved successfully" (Some summary) None
    /\ TaxService.calculateTax Examples.User_findById Examples.Income_find
         Examples.clock "u1" = Ok tax
    /\ totalIncome summary = TaxService.totalIncome tax.
Proof.
  destruct (getIncomeSummary_and_calculateTax Examples.User_findById
              Examples.Income_find Examples.clock "u1" Examples.asha eq_refl eq_refl)
    as (summary & tax & H1 & H2 & H3 & _).
  exists summary, tax. split; [exact H1|]. split; [exact H2 | exact H3].
Defined.

End IncomeSummaryFacts.

(** ** controllers/taxController.js: the other endpoints *)

Module TaxEndpointFacts.

Import JS Models NumberFacts RoundingFacts.
Import TaxEndpoints.
Import SummaryFacts SummaryExtra.

Local Open Scope string_scope.
Local Open Scope Q_scope.
Local Open Scope list_scope.

(** The tax endpoint answers 400 without a user id, 500 with the
    message of the service for a user the store does not know, and 200
    with the summary of the service for a known one. *)
Theorem calculateTax_answers (User_findById : string -> option User)
  (Income_find : string -> list Income) (clock : Clock) (userId : string) :
  (nonempty userId = false ->
   calculateTax User_findById Income_find clock userId
   = mkReply 400 false "User ID is required" None None)
  /\ (nonempty userId = true -> User_findById userId = None ->
      calculateTax User_findById Income_find clock userId
      = mkReply 500 false "Failed to calculate tax" None
          (Some "Tax calculation failed: User not found"))
  /\ (nonempty userId = true ->
      forall user, User_findById userId = Some user ->
      exists summary,
        TaxService.calculateTax User_findById Income_find clock userId = Ok summary
        /\ calculateTax User_findById Income_find clock userId
           = mkReply 200 true "Tax calculated successfully" (Some summary) None).
Proof.
  unfold calculateTax. split; [|split].
  - intros ->. reflexivity.
  - intros -> H. rewrite (calculateTax_not_found _ _ _ _ H). reflexivity.
  - intros -> user H.
    destruct (calculateTax_found User_findById Income_find clock userId user H)
      as (summary & Hok & _).
    exists summary. rewrite Hok. split; reflexivity.
Qed.

(** With an estimated income the advance-tax endpoint never touches the
    stores: it answers 200 with the schedule of the tax on that income,
    known user or not.  Without one it answers 500 for an unknown user,
    and for a known one exactly the income tax, the advance tax due and
    the due date of the tax summary. *)
Theorem getAdvanceTax_sources (User_findById : string -> option User)
  (Income_find : string -> list Income) (clock : Clock) (userId : string)
  (Hid : nonempty userId = true) :
  (forall estimatedIncome,
     exists info,
       getAdvanceTax User_findById Income_find clock userId (Some estimatedIncome)
       = mkReply 200 true "Advance tax calculated successfully" (Some info) None
       /\ estimatedTax info = TaxService.calculateIncomeTax estimatedIncome
       /\ amountDue info
          = TaxService.amountDue
              (TaxService.getAdvanceTaxDue clock
                 (TaxService.calculateIncomeTax estimatedIncome)))
  /\ (User_findById userId = None ->
      getAdvanceTax User_findById Income_find clock userId None
      = mkReply 500 false "Failed to calculate advance tax" None
          (Some "Tax calculation failed: User not found"))
  /\ (forall user, User_findById userId = Some user ->
      exists info summary,
        getAdvanceTax User_findById Income_find clock userId None
        = mkReply 200 true "Advance tax calculated successfully" (Some info) None
        /\ TaxService.calculateTax User_findById Income_find clock userId = Ok summary
        /\ estimatedTax info = TaxService.incomeTax summary
        /\ amountDue info = TaxService.advanceTaxDue summary
        /\ nextDueDate info = TaxService.nextAdvanceTaxDue summary).
Proof.
  unfold getAdvanceTax. rewrite Hid. cbn [negb]. split; [|split].
  - intro estimatedIncome. eexists. split; [reflexivity|]. split; reflexivity.
  - intro H. rewrite (calculateTax_not_found _ _ _ _ H). reflexivity.
  - intros user H.
    destruct (calculateTax_summary User_findById Income_find clock userId user H)
      as (summary & Hok & _ & _ & _ & _ & _ & Hadv & Hnext & _).
    eexists. exists summary. rewrite Hok. cbn [bind].
    split; [reflexivity|]. split; [reflexivity|].
    cbn [estimatedTax amountDue nextDueDate].
    split; [reflexivity|]. split; [rewrite Hadv | rewrite Hnext]; reflexivity.
Qed.

Lemma getAdvanceTax_sources_witness :
  exists info,
    getAdvanceTax (fun _ => None) (fun _ => []) Examples.clock "nobody" (Some 800000)
    = mkReply 200 true "Advance tax calculated successfully" (Some info) None
    /\ estimatedTax info = TaxService.calculateIncomeTax 800000.
Proof.
  destruct (proj1 (getAdvanceTax_sources (fun _ => None) (fun _ => []) Examples.clock
                     "nobody" eq_refl) 800000)
    as (info & H1 & H2 & _).
  exists info. split; [exact H1 | exact H2].
Defined.

(** The deductions endpoint answers 400 exactly when the income is
    missing or not positive; otherwise it answers 200 with the plan of
    the service, a missing expense object standing for an empty one. *)
Theorem getDeductions_answers (income : option Q)
  (expenses : option (list (string * Q))) :
  (status (getDeductions income expenses) = 400%Z
   <-> income = None \/ exists x, income = Some x /\ x <= 0)
  /\ (forall x, income = Some x -> 0 < x ->
      getDeductions income expenses
      = mkReply 200 true "Deductions calculated successfully"
          (Some (TaxService.calculateDeductions x
                   (Some (match expenses with Some e => e | None => [] end))))
          None
      /\ getDeductions income None = getDeductions income (Some [])).
Proof.
  split.
  - destruct income as [x|]; cbn [getDeductions].
    + destruct (truthy x) eqn:T; cbn [negb orb].
      * destruct (leb_spec x 0) as [H|H]; cbn [status]; split.
        -- intros _. right. exists x. split; [reflexivity | exact H].
        -- reflexivity.
        -- discriminate.
        -- intros [K|(y & K & L)]; [discriminate|]. injection K as <-. exfalso. lra.
      * cbn [status]. split; [|reflexivity].
        intros _. right. exists x. split; [reflexivity|].
        unfold truthy in T. destruct (Qeq_bool x 0) eqn:E; [|discriminate].
        apply Qeq_bool_eq in E. lra.
    + cbn [status]. split; [intros _; left; reflexivity | reflexivity].
  - intros x -> Hx. unfold getDeductions. rewrite (InvoiceFacts.truthy_pos x Hx).
    cbn [negb orb]. destruct (leb_spec x 0) as [H|_]; [exfalso; lra|].
    split; reflexivity.
Qed.

End TaxEndpointFacts.

(** ** public/js: the calculations of the browser *)

Module ClientFacts.

Import JS Models Spec NumberFacts RoundingFacts.
Import TaxFacts TaxExtra.
Import Client.

Local Open Scope string_scope.
Local Open Scope Q_scope.
Local Open Scope list_scope.

(** One round of the loop adds the slab's rate times the portion of the
    income inside the slab, and lists it when it is positive. *)
Lemma slab_step_spec (t : Q) (st : Q * list AppliedSlab) (slab : TaxSlab) :
  0 <= rate slab ->
  match max slab with Some m => min slab <= m | None => True end ->
  fst (slab_step t st slab)
  == fst st + rate slab * portion (mkSlab (min slab) (max slab) (rate slab)) t
  /\ total (map amount (snd (slab_step t st slab)))
     == total (map amount (snd st))
        + rate slab * portion (mkSlab (min slab) (max slab) (rate slab)) t
  /\ (Forall (fun a => 0 < amount a) (snd st) ->
      Forall (fun a => 0 < amount a) (snd (slab_step t st slab))).
Proof.
  intros Hrate Hmax. destruct st as [tax app]. unfold slab_step, portion, Math_min.
  cbn [lower upper Spec.rate fst snd].
  destruct (gtb_spec t (min slab)) as [Ht|Ht].
  - assert (P : 0 <= match max slab with Some m => Qmin t m | None => t end - min slab).
    { destruct (max slab) as [m|]; [|lra].
      destruct (Q.min_spec t m) as [[_ E]|[_ E]]; rewrite E; lra. }
    rewrite (Q.max_r 0 _ P).
    set (top := match max slab with Some m => Qmin t m | None => t end) in *.
    clearbody top.
    match goal with |- context [JS.gtb ?x 0] => destruct (gtb_spec x 0) as [Hpos|Hzero] end;
      cbn [fst snd].
    + split; [ring|]. split.
      * unfold total. rewrite map_app, fold_right_app. cbn [map fold_right amount].
        assert (G : forall l a, fold_right Qplus a l == fold_right Qplus 0 l + a).
        { induction l as [|x l IH]; intro a; cbn [fold_right]; [ring|].
          rewrite IH. ring. }
        rewrite G. ring.
      * intro F. apply Forall_app. split; [exact F|]. constructor; [exact Hpos|constructor].
    + split; [ring|]. split; [|auto].
      assert (Z : (top - min slab) * rate slab == 0)
        by (apply Qle_antisym; [exact Hzero | nra]).
      rewrite Qmult_comm, Z. ring.
  - cbn [fst snd].
    assert (P : match max slab with Some m => Qmin t m | None => t end - min slab <= 0).
    { destruct (max slab) as [m|]; [|lra].
      pose proof (Q.le_min_l t m). lra. }
    rewrite (Q.max_l 0 _ P). split; [ring|]. split; [ring | auto].
Qed.

Lemma slab_loop_spec (t : Q) (table : list TaxSlab) (st : Q * list AppliedSlab) :
  Forall (fun slab => 0 <= rate slab
                      /\ match max slab with Some m => min slab <= m | None => True end)
    table ->
  fst (fold_left (slab_step t) table st)
  == fst st
     + progressive (map (fun slab => mkSlab (min slab) (max slab) (rate slab)) table) t
  /\ total (map amount (snd (fold_left (slab_step t) table st)))
     == total (map amount (snd st))
        + progressive (map (fun slab => mkSlab (min slab) (max slab) (rate slab)) table) t
  /\ (Forall (fun a => 0 < amount a) (snd st) ->
      Forall (fun a => 0 < amount a) (snd (fold_left (slab_step t) table st))).
Proof.
  intro Hok. revert st.
  induction Hok as [|slab table [Hrate Hmax] _ IH]; intro st; cbn [fold_left map].
  - unfold progressive. cbn [fold_right]. split; [ring|]. split; [ring | auto].
  - destruct (slab_step_spec t st slab Hrate Hmax) as (S1 & S2 & S3).
    destruct (IH (slab_step t st slab)) as (I1 & I2 & I3).
    unfold progressive in *. cbn [fold_right Spec.rate].
    split; [rewrite I1, S1; ring|]. split; [rewrite I2, S2; ring | auto].
Qed.

Lemma slabs_ok :
  Forall (fun slab => 0 <= rate slab
                      /\ match max slab with Some m => min slab <= m | None => True end)
    slabs.
Proof. repeat constructor; discriminate. Qed.

(** What [calculateIndianTax] returns, in terms of the chain of the
    service. *)
Lemma calculateIndianTax_spec (income : Q) (deductions : option Q) :
  let d := match deductions with Some d => d | None => 0 end in
  let r := calculateIndianTax income deductions in
  taxableIncome r = Qmax 0 (income - d)
  /\ totalTax r == TaxService.slabTax (taxableIncome r)
  /\ total (map amount (applied r)) == totalTax r
  /\ Forall (fun a => 0 < amount a) (applied r)
  /\ effectiveRate r
     = (if taxableIncome r >? 0 then (totalTax r / taxableIncome r) * 100 else 0).
Proof.
  cbv zeta. unfold calculateIndianTax.
  set (t := Math_max 0 (income - _)).
  destruct (slab_loop_spec t slabs (0, []) slabs_ok) as (L1 & L2 & L3).
  destruct (fold_left (slab_step t) slabs (0, [])) as [tax app].
  cbn [fst snd taxableIncome totalTax applied effectiveRate] in *.
  split; [reflexivity|].
  assert (E : tax == TaxService.slabTax t).
  { rewrite L1, slabTax_progressive. unfold progressive_tax, Spec.slabs, slabs.
    cbn [map min max rate]. ring. }
  split; [exact E|]. split.
  - rewrite L2, L1. unfold total. cbn [map fold_right]. reflexivity.
  - split; [apply L3; constructor | reflexivity].
Qed.

(** The slab loop of the browser computes, before rounding, the tax of
    the service on the taxable income: rounded, its [totalTax] is
    [calculateIncomeTax] of the taxable income, and with no deductions
    and a non-negative income it is [calculateIncomeTax] of the income.
    The chain of main-simple.js gives the same figures. *)
Theorem calculateIndianTax_is_the_service (income : Q) (deductions : option Q) :
  Math_round (totalTax (calculateIndianTax income deductions))
  = TaxService.calculateIncomeTax (taxableIncome (calculateIndianTax income deductions))
  /\ (0 <= income ->
      Math_round (totalTax (calculateIndianTax income None))
      = TaxService.calculateIncomeTax income)
  /\ taxableIncome (calculateIndianTax income deductions)
     = taxableIncome (calculateIndianTax_simple income deductions)
  /\ totalTax (calculateIndianTax income deductions)
     == totalTax (calculateIndianTax_simple income deductions)
  /\ effectiveRate (calculateIndianTax income deductions)
     == effectiveRate (calculateIndianTax_simple income deductions).
Proof.
  destruct (calculateIndianTax_spec income deductions) as (Ht & Htax & _ & _ & He).
  cbv zeta in *.
  assert (S : totalTax (calculateIndianTax_simple income deductions)
              = TaxService.slabTax
                  (taxableIncome (calculateIndianTax_simple income deductions)))
    by reflexivity.
  assert (T : taxableIncome (calculateIndianTax income deductions)
              = taxableIncome (calculateIndianTax_simple income deductions))
    by (rewrite Ht; reflexivity).
  split; [unfold TaxService.calculateIncomeTax; apply Math_round_eq, Htax|].
  split.
  - intro Hpos.
    destruct (calculateIndianTax_spec income None) as (Ht0 & Htax0 & _).
    cbv zeta in *. unfold TaxService.calculateIncomeTax.
    apply Math_round_eq. rewrite Htax0. apply slabTax_comp.
    rewrite Ht0. rewrite Q.max_r; lra.
  - split; [exact T|].
    assert (X : totalTax (calculateIndianTax income deductions)
                == totalTax (calculateIndianTax_simple income deductions))
      by (rewrite S, <- T; exact Htax).
    split; [exact X|].
    rewrite He. change (effectiveRate (calculateIndianTax_simple income deductions))
      with (if taxableIncome (calculateIndianTax_simple income deductions) >? 0
            then (totalTax (calculateIndianTax_simple income deductions)
                  / taxableIncome (calculateIndianTax_simple income deductions)) * 100
            else 0).
    rewrite <- T. destruct (_ >? 0); [rewrite X|]; reflexivity.
Qed.

(** The slabs the browser lists add up to the total tax, each with a
    positive amount; none is listed exactly when the tax is zero. *)
Theorem calculateIndianTax_breakdown (income : Q) (deductions : option Q) :
  total (map amount (applied (calculateIndianTax income deductions)))
  == totalTax (calculateIndianTax income deductions)
  /\ Forall (fun a => 0 < amount a) (applied (calculateIndianTax income deductions))
  /\ (applied (calculateIndianTax income deductions) = []
      <-> totalTax (calculateIndianTax income deductions) == 0).
Proof.
  destruct (calculateIndianTax_spec income deductions) as (_ & _ & Hsum & Hpos & _).
  cbv zeta in *. split; [exact Hsum|]. split; [exact Hpos|].
  destruct (applied (calculateIndianTax income deductions)) as [|a l].
  - split; [intros _; rewrite <- Hsum; reflexivity | reflexivity].
  - split; [discriminate|]. intro Z. exfalso.
    rewrite <- Hsum in Z. unfold total in Z. cbn [map fold_right] in Z.
    inversion Hpos as [|? ? Ha Hl]; subst.
    assert (0 <= fold_right Qplus 0 (map amount l)).
    { apply (SummaryExtra.total_nonneg (map amount l)). apply Forall_map.
      revert Hl. apply Forall_impl. intros x Hx. apply Qlt_le_weak, Hx. }
    lra.
Qed.

(** The effective rate the browser shows is never negative and always
    below 30. *)
Theorem calculateIndianTax_effectiveRate (income : Q) (deductions : option Q) :
  0 <= effectiveRate (calculateIndianTax income deductions)
  /\ effectiveRate (calculateIndianTax income deductions) < 30.
Proof.
  destruct (calculateIndianTax_spec income deductions) as (_ & Htax & _ & _ & He).
  cbv zeta in *. rewrite He.
  set (t := taxableIncome (calculateIndianTax income deductions)) in *.
  set (x := totalTax (calculateIndianTax income deductions)) in *.
  destruct (gtb_spec t 0) as [Ht|Ht]; [|split; [lra | reflexivity]].
  pose proof (slabTax_nonneg t) as N.
  assert (U : TaxService.slabTax t < 0.30 * t)
    by (unfold TaxService.slabTax; js_cases; lra).
  rewrite <- Htax in N, U.
  assert (D0 : 0 <= x / t) by (apply Qle_shift_div_l; [exact Ht | lra]).
  assert (D1 : x / t < 0.30) by (apply Qlt_shift_div_r; [exact Ht | lra]).
  split; lra.
Qed.


(** The advance-tax schedule of the browser never decreases from June
    to March for a non-negative tax, and ends at the rounded tax; the
    amount the service reports as due is nothing before June, the June
    figure from June to August, the September figure from September to
    November and the December figure in December. *)
Theorem calculateAdvanceTax_schedule (totalTax : Q) (clock : Clock) :
  (0 <= totalTax ->
   0 <= june (calculateAdvanceTax totalTax)
   /\ june (calculateAdvanceTax totalTax) <= september (calculateAdvanceTax totalTax)
   /\ september (calculateAdvanceTax totalTax) <= december (calculateAdvanceTax totalTax)
   /\ december (calculateAdvanceTax totalTax) <= march (calculateAdvanceTax totalTax))
  /\ march (calculateAdvanceTax totalTax) = Math_round totalTax
  /\ TaxService.amountDue (TaxService.getAdvanceTaxDue clock totalTax)
     = (let m := (getMonth (new_Date clock) + 1)%Z in
        if (m <? 6)%Z then Math_round (totalTax * 0)
        else if (m <? 9)%Z then june (calculateAdvanceTax totalTax)
        else if (m <? 12)%Z then september (calculateAdvanceTax totalTax)
        else december (calculateAdvanceTax totalTax)).
Proof.
  unfold calculateAdvanceTax. cbn [june september december march].
  split; [|split].
  - intro H. split; [apply Math_round_nonneg; lra|].
    repeat split; apply Math_round_le; lra.
  - apply Math_round_eq. ring.
  - unfold TaxService.getAdvanceTaxDue. cbv zeta.
    destruct (_ <? 6)%Z; [|destruct (_ <? 9)%Z; [|destruct (_ <? 12)%Z]]; reflexivity.
Qed.

(** [calculatePercentage] does not divide by a zero total, and for a
    value between 0 and a positive total it stays between 0 and 100. *)
Theorem calculatePercentage_range (value total : Q) :
  (total == 0 -> calculatePercentage value total = 0)
  /\ (0 < total -> 0 <= value -> value <= total ->
      0 <= calculatePercentage value total /\ calculatePercentage value total <= 100).
Proof.
  unfold calculatePercentage. split.
  - intro H. apply Qeq_bool_iff in H. rewrite H. reflexivity.
  - intros Ht Hv Hvt.
    destruct (Qeq_bool total 0) eqn:E; [apply Qeq_bool_eq in E; exfalso; lra|].
    assert (D0 : 0 <= value / total) by (apply Qle_shift_div_l; [exact Ht | lra]).
    assert (D1 : value / total <= 1) by (apply Qle_shift_div_r; [exact Ht | lra]).
    set (q := value / total) in *.
    split; [apply Math_round_nonneg; lra|].
    apply Qle_trans with (Math_round 100); [apply Math_round_le; lra|].
    change (Math_round 100) with (Math_round (inject_Z 100)).
    rewrite (Math_round_integer 100). apply Qle_refl.
Qed.

Section Calendar.

Variable Date_of : Z -> Z -> Z -> Z.
Variable now : Z.
Variable currentYear : Z.

(** The browser's next due date is never the March instalment: when the
    March 15 of the current year is not after its June 15, the loop
    leaves at June, September or December, and after December 15 the
    answer is June 15 of the next year.  When that date is still ahead,
    the date returned is after now and at least one day away. *)
Theorem getNextTaxDueDate_skips_March
  (Hmarch : (Date_of currentYear 2 15 <= Date_of currentYear 5 15)%Z)
  (Hnext : (now < Date_of (currentYear + 1) 5 15)%Z) :
  let next := getNextTaxDueDate Date_of now currentYear in
  (due_name next = "June 15" \/ due_name next = "September 15"
   \/ due_name next = "December 15")
  /\ due_name next <> "March 15"
  /\ (now < date next)%Z
  /\ 1 <= daysUntil next
  /\ ((Date_of currentYear 11 15 <= now)%Z ->
      (Date_of currentYear 8 15 <= now)%Z ->
      (Date_of currentYear 5 15 <= now)%Z ->
      date next = Date_of (currentYear + 1) 5 15 /\ due_name next = "June 15").
Proof.
  assert (C : forall d : Z, (now < d)%Z ->
            1 <= Math_ceil (inject_Z (d - now) / (1000 * 60 * 60 * 24))).
  { intros d Hd. unfold Math_ceil.
    assert (P : 0 < inject_Z (d - now) / (1000 * 60 * 60 * 24)).
    { apply Qlt_shift_div_l; [reflexivity|].
      rewrite Qmult_0_l. change 0 with (inject_Z 0). rewrite <- Zlt_Qlt. lia. }
    pose proof (Qle_ceiling (inject_Z (d - now) / (1000 * 60 * 60 * 24))) as Q1.
    assert (Q2 : inject_Z 0 < inject_Z (Qceiling (inject_Z (d - now) / (1000 * 60 * 60 * 24))))
      by (change (inject_Z 0) with 0; lra).
    rewrite <- Zlt_Qlt in Q2. change 1 with (inject_Z 1). rewrite <- Zle_Qle. lia. }
  unfold getNextTaxDueDate, dueDates. cbn [find month day name].
  destruct (Z.gtb_spec (Date_of currentYear 5 15) now) as [H1|H1];
    [|destruct (Z.gtb_spec (Date_of currentYear 8 15) now) as [H2|H2];
      [|destruct (Z.gtb_spec (Date_of currentYear 11 15) now) as [H3|H3];
        [|destruct (Z.gtb_spec (Date_of currentYear 2 15) now) as [H4|H4];
          [exfalso; lia|]]]];
    cbn [due_name date daysUntil];
    (split; [auto|]); (split; [discriminate|]); (split; [assumption|]);
    (split; [apply C; assumption|]); intros; try (exfalso; lia); split; reflexivity.
Qed.

End Calendar.

Lemma getNextTaxDueDate_skips_March_witness :
  due_name (getNextTaxDueDate Samples.Date_of (Samples.Date_of 2026 11 20) 2026)
  = "June 15".
Proof.
  refine (proj2 (proj2 (proj2 (proj2 (proj2
            (getNextTaxDueDate_skips_March Samples.Date_of (Samples.Date_of 2026 11 20)
               2026 _ _)))) _ _ _)); vm_compute; first [reflexivity | discriminate].
Defined.

End ClientFacts.

(** ** controllers/invoiceController.js: the file name *)

Module FileNameFacts.

Import JS.
Import InvoiceEndpoints.

Local Open Scope string_scope.

Lemma space2_dash (c : ascii) : space2 c "-" = false.
Proof. unfold space2. apply andb_false_r. Qed.

Lemma space3_dash_middle (c1 c3 : ascii) : space3 c1 "-" c3 = false.
Proof.
  unfold space3. cbv zeta. change (byte "-") with 45%N.
  cbn [N.eqb Pos.eqb]. rewrite !andb_false_r. reflexivity.
Qed.

Lemma space3_dash_last (c1 c2 : ascii) : space3 c1 c2 "-" = false.
Proof.
  unfold space3. cbv zeta. change (byte "-") with 45%N.
  cbn [N.eqb Pos.eqb N.leb N.compare Pos.compare Pos.compare_cont orb andb].
  rewrite !andb_false_r. reflexivity.
Qed.

Lemma whitespace_dash (rest : string) : whitespace (String "-" rest) = None.
Proof. destruct rest as [|c2 [|c3 rest]]; reflexivity. Qed.

(** How the result of [dashes 0 false] starts. *)
Lemma dashes_head (s : string) :
  (s = "" /\ dashes 0 false s = "")
  \/ (exists rest, dashes 0 false s = String "-" rest)
  \/ (exists c rest, s = String c rest /\ dashes 0 false s = String c (dashes 0 false rest)).
Proof.
  destruct s as [|c rest]; [left; split; reflexivity|]. right.
  cbn [dashes]. destruct (whitespace (String c rest)); [left | right]; eauto.
Qed.

(** A copied character does not become white space through what
    follows it in the result. *)
Lemma whitespace_copied (c : ascii) (rest : string) :
  whitespace (String c rest) = None ->
  whitespace (String c (dashes 0 false rest)) = None.
Proof.
  cbn [whitespace]. destruct (ascii_space c); [discriminate|]. intro H.
  destruct (dashes_head rest) as [[-> ->]|[(y & ->)|(c2 & rest2 & -> & ->)]].
  - reflexivity.
  - rewrite space2_dash. destruct y; [reflexivity|]. rewrite space3_dash_middle.
    reflexivity.
  - destruct (space2 c c2); [discriminate|].
    destruct (dashes_head rest2) as [[-> ->]|[(y & ->)|(c3 & rest3 & -> & ->)]].
    + reflexivity.
    + rewrite space3_dash_last. reflexivity.
    + destruct (space3 c c2 c3); [discriminate | reflexivity].
Qed.

Lemma no_whitespace_cons (c : ascii) (s : string) :
  whitespace (String c s) = None ->
  (forall before after, s = before ++ after -> whitespace after = None) ->
  forall before after, String c s = before ++ after -> whitespace after = None.
Proof.
  intros Hc Hs before after E. destruct before as [|b before]; cbn in E.
  - subst after. exact Hc.
  - injection E as _ E. exact (Hs before after E).
Qed.

Lemma dashes_no_whitespace (s : string) (skip : nat) (run : bool) :
  forall before after, dashes skip run s = before ++ after -> whitespace after = None.
Proof.
  revert skip run. induction s as [|c rest IH]; intros skip run.
  - cbn [dashes]. intros [|b before] after E.
    + cbn in E. subst after. reflexivity.
    + discriminate.
  - cbn [dashes]. destruct skip as [|k]; [|apply IH].
    destruct (whitespace (String c rest)) as [found|] eqn:W.
    + destruct run; [apply IH|].
      apply no_whitespace_cons; [apply whitespace_dash | apply IH].
    + apply no_whitespace_cons; [apply whitespace_copied, W | apply IH].
Qed.

(** The file name of the PDF never contains white space: wherever the
    result of [replace(/\s+/g, '-')] is cut, what follows does not start
    with a white-space character.  A name without white space is kept as
    it is. *)
Theorem replace_whitespace_leaves_none (s : string) :
  (forall before after,
     replace_whitespace s = before ++ after -> whitespace after = None)
  /\ ((forall before after, s = before ++ after -> whitespace after = None) ->
      replace_whitespace s = s).
Proof.
  split; [apply dashes_no_whitespace|].
  unfold replace_whitespace. induction s as [|c rest IH]; intro H; [reflexivity|].
  cbn [dashes]. rewrite (H "" (String c rest) eq_refl). f_equal.
  apply IH. intros before after E. apply (H (String c before) after).
  cbn. rewrite E. reflexivity.
Qed.

End FileNameFacts.
